(** * Weather / identity MCP server: a shallow embedding of [server.ts] and
      of the Express entry point that hosts it.

    The TypeScript sources manipulate untyped JSON (every upstream payload is
    cast with [as T], never validated), so the embedding works on a small
    model of JavaScript values and of the handful of language operations the
    handlers use: truthiness, [||], member access, [?.], template-literal
    string conversion, [Array.prototype.map]/[join] and [JSON.stringify].
    Exceptions are explicit ([outcome]); outbound calls are threaded through a
    trace monad so that "no call was made" is a statement about the trace. *)

From Stdlib Require Import String Ascii List ZArith Bool Lia DecimalString.
Import ListNotations.
Local Open Scope list_scope.
Local Open Scope string_scope.

Set Implicit Arguments.
Set Warnings "-register-all".

(* ===================================================================== *)
(** ** Strings *)
(* ===================================================================== *)

(** Strings are the byte sequences of the source file and of the wire
    (UTF-8).  Every literal below is copied byte for byte from [server.ts]. *)

Definition dquote : string := String (ascii_of_nat 34) EmptyString.
Definition backslash : string := String (ascii_of_nat 92) EmptyString.
Definition newline : string := String (ascii_of_nat 10) EmptyString.

(** [xs.join(sep)] on an array of strings. *)
Fixpoint join (sep : string) (xs : list string) : string :=
  match xs with
  | [] => EmptyString
  | [x] => x
  | x :: rest => x ++ sep ++ join sep rest
  end.

Definition hex_digit (n : nat) : ascii :=
  ascii_of_nat (if Nat.ltb n 10 then 48 + n else 87 + n).

(** One character of [JSON.stringify]'s [QuoteJSONString]. *)
Definition escape_char (c : ascii) : string :=
  let n := nat_of_ascii c in
  if Nat.eqb n 34 then backslash ++ dquote
  else if Nat.eqb n 92 then backslash ++ backslash
  else if Nat.eqb n 8 then backslash ++ "b"
  else if Nat.eqb n 9 then backslash ++ "t"
  else if Nat.eqb n 10 then backslash ++ "n"
  else if Nat.eqb n 12 then backslash ++ "f"
  else if Nat.eqb n 13 then backslash ++ "r"
  else if Nat.ltb n 32 then
    backslash ++ "u00" ++ String (hex_digit (n / 16)) (String (hex_digit (n mod 16)) EmptyString)
  else String c EmptyString.

Fixpoint json_escape (s : string) : string :=
  match s with
  | EmptyString => EmptyString
  | String c rest => escape_char c ++ json_escape rest
  end.

Definition json_quote (s : string) : string := dquote ++ json_escape s ++ dquote.

(** [s.split(' ')]: the pieces between single spaces. *)
Fixpoint split_space_aux (cur : string) (s : string) : list string :=
  match s with
  | EmptyString => [cur]
  | String c rest =>
      if Ascii.eqb c " "%char then cur :: split_space_aux EmptyString rest
      else split_space_aux (cur ++ String c EmptyString) rest
  end.

Definition split_space (s : string) : list string := split_space_aux EmptyString s.

(** Substring test used to state "the text contains ...". *)
Definition contains (text piece : string) : Prop :=
  exists pre post, text = pre ++ piece ++ post.

(* ===================================================================== *)
(** ** What the JavaScript runtime supplies *)
(* ===================================================================== *)

(** Numbers are IEEE doubles whose printing is the runtime's business.  The
    numbers this program meets come from [JSON.parse] or from input that the
    schema has validated, so [NaN] is not among them and a number is falsy
    exactly when it is [=== 0]. *)
Class JsNumber (number : Type) : Type := {
  num_of_Z : Z -> number;                (* an integer literal or count *)
  num_is_zero : number -> bool;          (* [x === 0], true of +0 and -0 *)
  num_to_string : number -> string;      (* [String(x)], as in a template literal *)
  num_to_fixed4 : number -> string;      (* [x.toFixed(4)] *)
  num_to_json : number -> string;        (* [JSON.stringify(x)] *)
  num_of_Z_is_zero : forall z, num_is_zero (num_of_Z z) = Z.eqb z 0;
  num_to_string_plain : forall n, json_escape (num_to_string n) = num_to_string n
}.

(** String operations that depend on Unicode tables or on UTF-16 code units. *)
Class JsString : Type := {
  toUpperCase : string -> string;        (* [s.toUpperCase()] *)
  code_units : string -> list string;    (* the one-unit strings [s[0]], [s[1]], ... *)
  code_units_nil : forall s, code_units s = [] <-> s = EmptyString
}.

(* ===================================================================== *)
(** ** Exceptions *)
(* ===================================================================== *)

Inductive exn : Type :=
| TypeError (msg : string)
| Error (msg : string).

Inductive outcome (A : Type) : Type :=
| Ok (a : A)
| Throw (e : exn).
Arguments Ok {A} a.
Arguments Throw {A} e.

Definition obind {A B} (o : outcome A) (k : A -> outcome B) : outcome B :=
  match o with
  | Ok a => k a
  | Throw e => Throw e
  end.

Definition returns {A} (o : outcome A) : Prop := exists a, o = Ok a.

(** [xs.map(f)] where [f] may throw: the first exception wins. *)
Fixpoint omap {A B} (f : A -> outcome B) (xs : list A) : outcome (list B) :=
  match xs with
  | [] => Ok []
  | x :: rest =>
      obind (f x) (fun y => obind (omap f rest) (fun ys => Ok (y :: ys)))
  end.

(* ===================================================================== *)
(** ** JavaScript values *)
(* ===================================================================== *)

Section Server.

Context {number : Type} {NUM : JsNumber number} {STR : JsString}.

(** What [JSON.parse] produces, plus [undefined].  An object is the list of
    its own properties in enumeration order. *)
Inductive value : Type :=
| VUndefined
| VNull
| VBool (b : bool)
| VNum (n : number)
| VStr (s : string)
| VArr (items : list value)
| VObj (fields : list (string * value)).

Fixpoint lookup (k : string) (fields : list (string * value)) : option value :=
  match fields with
  | [] => None
  | (k', v) :: rest => if String.eqb k k' then Some v else lookup k rest
  end.

(** [o[k] = v] on a plain object: an existing property keeps its place, a new
    one goes last. *)
Fixpoint assign (k : string) (v : value) (fields : list (string * value))
  : list (string * value) :=
  match fields with
  | [] => [(k, v)]
  | (k', v') :: rest =>
      if String.eqb k k' then (k', v) :: rest else (k', v') :: assign k v rest
  end.

(** [ToBoolean]. *)
Definition truthy (v : value) : bool :=
  match v with
  | VUndefined | VNull => false
  | VBool b => b
  | VNum n => negb (num_is_zero n)
  | VStr s => negb (String.eqb s EmptyString)
  | VArr _ | VObj _ => true
  end.

(** [a || b] (both operands here are free of effects). *)
Definition js_or (a b : value) : value := if truthy a then a else b.

Definition nullish (v : value) : bool :=
  match v with
  | VUndefined | VNull => true
  | _ => false
  end.

(** Member access [v.k] for the property names the program reads.  None of
    them ([features], [properties], [length], ...) is inherited from a
    prototype except [length], which arrays and strings own. *)
Definition get_prop (v : value) (k : string) : outcome value :=
  match v with
  | VUndefined =>
      Throw (TypeError ("Cannot read properties of undefined (reading '" ++ k ++ "')"))
  | VNull =>
      Throw (TypeError ("Cannot read properties of null (reading '" ++ k ++ "')"))
  | VObj fields =>
      Ok (match lookup k fields with Some x => x | None => VUndefined end)
  | VArr items =>
      Ok (if String.eqb k "length" then VNum (num_of_Z (Z.of_nat (length items)))
          else VUndefined)
  | VStr s =>
      Ok (if String.eqb k "length" then VNum (num_of_Z (Z.of_nat (length (code_units s))))
          else VUndefined)
  | VBool _ | VNum _ => Ok VUndefined
  end.

(** Optional chaining [v?.k]. *)
Definition get_prop_opt (v : value) (k : string) : outcome value :=
  if nullish v then Ok VUndefined else get_prop v k.

(** [v === 0]. *)
Definition is_zero (v : value) : bool :=
  match v with
  | VNum n => num_is_zero n
  | _ => false
  end.

(** [v.map(f)]: only an array has a callable [map]; a JSON object's own [map]
    property, if any, is data. *)
Definition js_map {B} (v : value) (f : value -> outcome B) : outcome (list B) :=
  match v with
  | VArr items => omap f items
  | VUndefined => Throw (TypeError "Cannot read properties of undefined (reading 'map')")
  | VNull => Throw (TypeError "Cannot read properties of null (reading 'map')")
  | _ => Throw (TypeError "map is not a function")
  end.

Definition has_key (k : string) (fields : list (string * value)) : bool :=
  match lookup k fields with Some _ => true | None => false end.

(** [ToString], as a template literal applies it.  An array joins its
    elements with commas, [null] and [undefined] elements giving the empty
    string.  A parsed object prints as [[object Object]] unless it owns a
    [toString] property, which is then not callable and makes the conversion
    fail. *)
Fixpoint to_string (v : value) : outcome string :=
  match v with
  | VUndefined => Ok "undefined"
  | VNull => Ok "null"
  | VBool b => Ok (if b then "true" else "false")
  | VNum n => Ok (num_to_string n)
  | VStr s => Ok s
  | VArr items =>
      obind
        ((fix each (xs : list value) : outcome (list string) :=
            match xs with
            | [] => Ok []
            | x :: rest =>
                obind (if nullish x then Ok EmptyString else to_string x)
                  (fun s => obind (each rest) (fun ss => Ok (s :: ss)))
            end) items)
        (fun parts => Ok (join "," parts))
  | VObj fields =>
      if has_key "toString" fields
      then Throw (TypeError "Cannot convert object to primitive value")
      else Ok "[object Object]"
  end.

(** [JSON.stringify(v, null, gap)]; [indent] is the current indentation.
    [None] stands for the [undefined] that [JSON.stringify(undefined)] gives:
    such a property is left out of an object and printed [null] in an array. *)
Fixpoint stringify_at (gap indent : string) (v : value) : option string :=
  match v with
  | VUndefined => None
  | VNull => Some "null"
  | VBool b => Some (if b then "true" else "false")
  | VNum n => Some (num_to_json n)
  | VStr s => Some (json_quote s)
  | VArr items =>
      let inner := indent ++ gap in
      let parts :=
        (fix each (xs : list value) : list string :=
           match xs with
           | [] => []
           | x :: rest =>
               (match stringify_at gap inner x with Some s => s | None => "null" end)
               :: each rest
           end) items in
      Some (match parts with
            | [] => "[]"
            | _ =>
                if String.eqb gap EmptyString then "[" ++ join "," parts ++ "]"
                else "[" ++ newline ++ inner
                     ++ join ("," ++ newline ++ inner) parts
                     ++ newline ++ indent ++ "]"
            end)
  | VObj fields =>
      let inner := indent ++ gap in
      let colon := if String.eqb gap EmptyString then ":" else ": " in
      let parts :=
        (fix each (xs : list (string * value)) : list string :=
           match xs with
           | [] => []
           | (k, x) :: rest =>
               match stringify_at gap inner x with
               | Some s => (json_quote k ++ colon ++ s) :: each rest
               | None => each rest
               end
           end) fields in
      Some (match parts with
            | [] => "{}"
            | _ =>
                if String.eqb gap EmptyString then "{" ++ join "," parts ++ "}"
                else "{" ++ newline ++ inner
                     ++ join ("," ++ newline ++ inner) parts
                     ++ newline ++ indent ++ "}"
            end)
  end.

(** [JSON.stringify(o)] and [JSON.stringify(o, null, 2)] on an object [o]
    (never [undefined], so a string always comes back). *)
Definition stringify (o : list (string * value)) : string :=
  match stringify_at EmptyString EmptyString (VObj o) with
  | Some s => s
  | None => EmptyString
  end.

Definition stringify2 (o : list (string * value)) : string :=
  match stringify_at "  " EmptyString (VObj o) with
  | Some s => s
  | None => EmptyString
  end.

(* ===================================================================== *)
(** ** Outbound calls *)
(* ===================================================================== *)

(** Everything the handlers do to the outside world, in the order done. *)
Inductive effect : Type :=
| Fetch (url : string) (headers : list (string * string))
| NewManagedIdentityCredential (clientId : option string)
| NewOnBehalfOfCredential
    (tenantId clientId userAssertionToken : option string) (assertionScope : string)
| GetToken (scope : string)
| ConsoleError (label : string).

Definition trace : Type := list effect.

Definition is_fetch (e : effect) : bool :=
  match e with Fetch _ _ => true | _ => false end.

(** The outbound calls among the effects: constructing a credential object and
    logging do not leave the process. *)
Definition is_outbound (e : effect) : bool :=
  match e with Fetch _ _ | GetToken _ => true | _ => false end.

Definition fetches (tr : trace) : list effect := filter is_fetch tr.
Definition outbound (tr : trace) : list effect := filter is_outbound tr.

(** A [fetch] response: [ok] is what the Fetch standard defines, a status in
    200..299; [body] is what [response.json()] resolves or rejects with. *)
Record response : Type := {
  status : Z;
  body : outcome value
}.

Definition ok (r : response) : bool :=
  (Z.leb 200 (status r) && Z.leb (status r) 299)%bool.

(** How the outside answers.  An answer may depend on everything that
    happened before. *)
Record world : Type := {
  net_fetch : trace -> string -> list (string * string) -> outcome response;
  mi_new : trace -> option string -> outcome unit;
  obo_new : trace -> option string -> option string -> option string -> outcome unit;
  obo_getToken : trace -> string -> outcome (option string)
}.

Variable w : world.

(** Computations that may throw and that extend the trace. *)
Definition M (A : Type) : Type := trace -> outcome A * trace.

Definition ret {A} (a : A) : M A := fun tr => (Ok a, tr).
Definition throw {A} (e : exn) : M A := fun tr => (Throw e, tr).
Definition lift {A} (o : outcome A) : M A := fun tr => (o, tr).

Definition bind {A B} (m : M A) (k : A -> M B) : M B :=
  fun tr =>
    match m tr with
    | (Ok a, tr') => k a tr'
    | (Throw e, tr') => (Throw e, tr')
    end.

Definition try_catch {A} (body : M A) (handler : exn -> M A) : M A :=
  fun tr =>
    match body tr with
    | (Ok a, tr') => (Ok a, tr')
    | (Throw e, tr') => handler e tr'
    end.

Definition call {A} (ev : effect) (answer : trace -> outcome A) : M A :=
  fun tr => (answer tr, tr ++ [ev])%list.

Notation "x <- m ;; k" := (bind m (fun x => k))
  (at level 61, m at next level, right associativity).
Notation "m ;;; k" := (bind m (fun _ => k))
  (at level 61, right associativity).

Definition fetch (url : string) (headers : list (string * string)) : M response :=
  call (Fetch url headers) (fun tr => net_fetch w tr url headers).

Definition console_error (label : string) : M unit :=
  call (ConsoleError label) (fun _ => Ok tt).

Definition NWS_API_BASE : string := "https://api.weather.gov".
Definition USER_AGENT : string := "weather-app/1.0".

(** The [headers] constant of [makeNWSRequest]. *)
Definition nws_headers : list (string * string) :=
  [("User-Agent", USER_AGENT); ("Accept", "application/geo+json")].

(** [makeNWSRequest]: the helper for National Weather Service requests.
    The declared parameter type is [string], but the forecast handler passes
    whatever truthy value the upstream payload held; [fetch] converts its
    argument to a string first, inside the [try]. *)
Definition makeNWSRequest (url : value) : M value :=
  let headers := nws_headers in
  try_catch
    (target <- lift (to_string url) ;;
     response <- fetch target headers ;;
     if negb (ok response)
     then throw (Error ("HTTP error! status: " ++ num_to_string (num_of_Z (status response))))
     else lift (body response))
    (fun error =>
       console_error "Error making NWS request:" ;;;
       ret VNull).

(** What [makeNWSRequest] comes back with, read off the answer to its one
    [fetch]. *)
Definition absent_or_payload (answer : outcome response) : value :=
  match answer with
  | Ok r =>
      if ok r then match body r with Ok payload => payload | Throw _ => VNull end
      else VNull
  | Throw _ => VNull
  end.

(* ===================================================================== *)
(** ** Formatting *)
(* ===================================================================== *)

Notation "'let!' x ':=' o 'in' k" := (obind o (fun x => k))
  (at level 10, x name, o at level 100, k at level 200).

(** The template-literal piece [${o.k || dflt}]. *)
Definition field_or (o : value) (k : string) (dflt : string) : outcome string :=
  let! x := get_prop o k in to_string (js_or x (VStr dflt)).

(** The six lines of [formatAlert], before its [join]. *)
Definition alertLines (feature : value) : outcome (list string) :=
  let! props := get_prop feature "properties" in
  let! event := field_or props "event" "Unknown" in
  let! areaDesc := field_or props "areaDesc" "Unknown" in
  let! severity := field_or props "severity" "Unknown" in
  let! status' := field_or props "status" "Unknown" in
  let! headline := field_or props "headline" "No headline" in
  Ok [ "Event: " ++ event;
       "Area: " ++ areaDesc;
       "Severity: " ++ severity;
       "Status: " ++ status';
       "Headline: " ++ headline;
       "---" ].

(** [formatAlert]. *)
Definition formatAlert (feature : value) : outcome string :=
  let! lines := alertLines feature in Ok (join newline lines).

(** The five lines of one forecast period: the arrow function passed to
    [periods.map] in the forecast handler, before its [join]. *)
Definition periodLines (period : value) : outcome (list string) :=
  let! name := field_or period "name" "Unknown" in
  let! temperature := field_or period "temperature" "Unknown" in
  let! temperatureUnit := field_or period "temperatureUnit" "F" in
  let! windSpeed := field_or period "windSpeed" "Unknown" in
  let! windDirection := field_or period "windDirection" EmptyString in
  let! shortForecast := field_or period "shortForecast" "No forecast available" in
  Ok [ name ++ ":";
       "Temperature: " ++ temperature ++ "Â°" ++ temperatureUnit;
       "Wind: " ++ windSpeed ++ " " ++ windDirection;
       shortForecast;
       "---" ].

Definition formatPeriod (period : value) : outcome string :=
  let! lines := periodLines period in Ok (join newline lines).

(** *** Records that conform to the declared interfaces

    [AlertFeature] and [ForecastPeriod] as [server.ts] declares them: every
    field optional, strings except the temperature.  [None] is a field the
    upstream payload does not have. *)
Record AlertProperties : Type := {
  event : option string;
  areaDesc : option string;
  severity : option string;
  alert_status : option string;          (* [status] *)
  headline : option string
}.

Record ForecastPeriod : Type := {
  name : option string;
  temperature : option number;
  temperatureUnit : option string;
  windSpeed : option string;
  windDirection : option string;
  shortForecast : option string
}.

Definition opt_field (k : string) (x : option value) : list (string * value) :=
  match x with Some v => [(k, v)] | None => [] end.

(** The JSON object a conforming record is parsed from. *)
Definition alert_value (p : AlertProperties) : value :=
  VObj [ ("properties",
          VObj (opt_field "event" (option_map VStr (event p))
                ++ opt_field "areaDesc" (option_map VStr (areaDesc p))
                ++ opt_field "severity" (option_map VStr (severity p))
                ++ opt_field "status" (option_map VStr (alert_status p))
                ++ opt_field "headline" (option_map VStr (headline p)))%list) ].

Definition period_value (p : ForecastPeriod) : value :=
  VObj (opt_field "name" (option_map VStr (name p))
        ++ opt_field "temperature" (option_map VNum (temperature p))
        ++ opt_field "temperatureUnit" (option_map VStr (temperatureUnit p))
        ++ opt_field "windSpeed" (option_map VStr (windSpeed p))
        ++ opt_field "windDirection" (option_map VStr (windDirection p))
        ++ opt_field "shortForecast" (option_map VStr (shortForecast p)))%list.

(** What [${x || dflt}] prints when [x] is an optional string, and what
    [${x || "Unknown"}] prints when [x] is an optional number. *)
Definition or_default (dflt : string) (x : option string) : string :=
  match x with
  | Some s => if String.eqb s EmptyString then dflt else s
  | None => dflt
  end.

Definition number_or_unknown (x : option number) : string :=
  match x with
  | Some n => if num_is_zero n then "Unknown" else num_to_string n
  | None => "Unknown"
  end.

(** The shape of a formatted alert and of a formatted period, piece by
    piece. *)
Definition alert_text (event areaDesc severity status headline : string) : string :=
  join newline
    [ "Event: " ++ event;
      "Area: " ++ areaDesc;
      "Severity: " ++ severity;
      "Status: " ++ status;
      "Headline: " ++ headline;
      "---" ].

Definition period_text
    (name temperature temperatureUnit windSpeed windDirection shortForecast : string)
  : string :=
  join newline
    [ name ++ ":";
      "Temperature: " ++ temperature ++ "Â°" ++ temperatureUnit;
      "Wind: " ++ windSpeed ++ " " ++ windDirection;
      shortForecast;
      "---" ].

(* ===================================================================== *)
(** ** The tool handlers *)
(* ===================================================================== *)

Record content_item : Type := {
  type : string;
  text : string
}.

(** What a handler returns to the protocol layer. *)
Record envelope : Type := {
  content : list content_item;
  structuredContent : list (string * value)
}.

Definition text_content (s : string) : list content_item :=
  [ {| type := "text"; text := s |} ].

(** [{ content: [{ type: "text", text: JSON.stringify(output) }],
       structuredContent: output }]. *)
Definition json_envelope (output : list (string * value)) : envelope :=
  {| content := text_content (stringify output); structuredContent := output |}.

Definition json2_envelope (output : list (string * value)) : envelope :=
  {| content := text_content (stringify2 output); structuredContent := output |}.

(** The [get-alerts] handler. *)
Definition get_alerts (state : string) : M envelope :=
  let stateCode := toUpperCase state in
  let alertsUrl := NWS_API_BASE ++ "/alerts?area=" ++ stateCode in
  alertsData <- makeNWSRequest (VStr alertsUrl) ;;
  if negb (truthy alertsData) then
    ret (json_envelope [("alerts", VStr "Failed to retrieve alerts data")])
  else
    features0 <- lift (get_prop alertsData "features") ;;
    let features := js_or features0 (VArr []) in
    len <- lift (get_prop features "length") ;;
    if is_zero len then
      ret (json_envelope [("alerts", VStr ("No active alerts for " ++ stateCode))])
    else
      formattedAlerts <- lift (js_map features formatAlert) ;;
      let alertsText :=
        "Active alerts for " ++ stateCode ++ ":" ++ newline ++ newline
        ++ join newline formattedAlerts in
      ret {| content := text_content alertsText;
             structuredContent := [("alerts", VStr alertsText)] |}.

Definition grid_point_failure (latitude longitude : number) : string :=
  "Failed to retrieve grid point data for coordinates: "
  ++ num_to_string latitude ++ ", " ++ num_to_string longitude
  ++ ". This location may not be supported by the NWS API (only US locations are supported).".

(** The [get-forecast] handler. *)
Definition get_forecast (latitude longitude : number) : M envelope :=
  let pointsUrl :=
    NWS_API_BASE ++ "/points/" ++ num_to_fixed4 latitude ++ "," ++ num_to_fixed4 longitude in
  pointsData <- makeNWSRequest (VStr pointsUrl) ;;
  if negb (truthy pointsData) then
    ret (json_envelope [("forecast", VStr (grid_point_failure latitude longitude))])
  else
    properties <- lift (get_prop pointsData "properties") ;;
    forecastUrl <- lift (get_prop_opt properties "forecast") ;;
    if negb (truthy forecastUrl) then
      ret (json_envelope
             [("forecast", VStr "Failed to get forecast URL from grid point data")])
    else
      forecastData <- makeNWSRequest forecastUrl ;;
      if negb (truthy forecastData) then
        ret (json_envelope [("forecast", VStr "Failed to retrieve forecast data")])
      else
        properties' <- lift (get_prop forecastData "properties") ;;
        periods0 <- lift (get_prop_opt properties' "periods") ;;
        let periods := js_or periods0 (VArr []) in
        len <- lift (get_prop periods "length") ;;
        if is_zero len then
          ret (json_envelope [("forecast", VStr "No forecast periods available")])
        else
          formattedForecast <- lift (js_map periods formatPeriod) ;;
          let forecastText :=
            "Forecast for " ++ num_to_string latitude ++ ", " ++ num_to_string longitude
            ++ ":" ++ newline ++ newline ++ join newline formattedForecast in
          ret {| content := text_content forecastText;
                 structuredContent := [("forecast", VStr forecastText)] |}.

(* ===================================================================== *)
(** ** The identity tool *)
(* ===================================================================== *)

(** [process.env]: a variable that is not set reads as [undefined]. *)
Record environment : Type := {
  TokenExchangeAudience : option string;
  OVERRIDE_USE_MI_FIC_ASSERTION_CLIENTID : option string;
  WEBSITE_AUTH_CLIENT_ID : option string;
  WEBSITE_AUTH_AAD_ALLOWED_TENANTS : option string;
  WEBSITE_HOSTNAME : option string
}.

Variable env : environment.

(** A header value as Node hands it over: one string, or several. *)
Inductive header_value : Type :=
| HOne (s : string)
| HMany (ss : list string).

Definition header_map : Type := list (string * header_value).

Fixpoint header (k : string) (hs : header_map) : option header_value :=
  match hs with
  | [] => None
  | (k', v) :: rest => if String.eqb k k' then Some v else header k rest
  end.

(** The second argument of a handler; every level may be missing
    ([extra?.requestInfo?.headers]). *)
Record request_info : Type := { headers : option header_map }.
Record request_extra : Type := { requestInfo : option request_info }.

Definition extra_headers (extra : option request_extra) : option header_map :=
  match extra with
  | None => None
  | Some e =>
      match requestInfo e with
      | None => None
      | Some ri => headers ri
      end
  end.

(** [${x}] for a string that may be [undefined]. *)
Definition show_opt (x : option string) : string :=
  match x with Some s => s | None => "undefined" end.

(** [(headers['authorization'] as string).split(' ')[1]]. *)
Definition bearer_token (hs : header_map) : outcome (option string) :=
  match header "authorization" hs with
  | None => Throw (TypeError "Cannot read properties of undefined (reading 'split')")
  | Some (HMany _) => Throw (TypeError "split is not a function")
  | Some (HOne s) => Ok (nth_error (split_space s) 1)
  end.

Definition MASKED : value := VStr "[MASKED]".

Fixpoint indexed (i : nat) (xs : list value) : list (string * value) :=
  match xs with
  | [] => []
  | x :: rest => (NilZero.string_of_uint (Nat.to_uint i), x) :: indexed (S i) rest
  end.

(** [{ ...v }]: the own enumerable properties of [v]. *)
Definition spread (v : value) : list (string * value) :=
  match v with
  | VObj fields => fields
  | VArr items => indexed 0 items
  | VStr s => indexed 0 (map VStr (code_units s))
  | _ => []
  end.

Definition field (k : string) (o : list (string * value)) : value :=
  match lookup k o with Some x => x | None => VUndefined end.

(** The masking step of the identity handler. *)
Definition maskUserData (graphData : value) : outcome (list (string * value)) :=
  let maskedUserData := spread graphData in
  let! maskedUserData :=
    if truthy (field "businessPhones" maskedUserData) then
      let! phones := js_map (field "businessPhones" maskedUserData) (fun _ => Ok MASKED) in
      Ok (assign "businessPhones" (VArr phones) maskedUserData)
    else Ok maskedUserData in
  Ok (if truthy (field "id" maskedUserData)
      then assign "id" MASKED maskedUserData
      else maskedUserData).

(** How a masked profile relates to the raw one: a truthy [id] is replaced
    by the marker and a falsy one is left as it is; a truthy [businessPhones]
    is an array, replaced by as many markers, and a falsy one is left as it
    is; every other property is unchanged, and so are the property names and
    their order. *)
Definition masked_projection (raw masked : list (string * value)) : Prop :=
  (truthy (field "id" raw) = true -> lookup "id" masked = Some MASKED)
  /\ (truthy (field "id" raw) = false -> lookup "id" masked = lookup "id" raw)
  /\ (truthy (field "businessPhones" raw) = true ->
      exists phones,
        lookup "businessPhones" raw = Some (VArr phones)
        /\ lookup "businessPhones" masked = Some (VArr (map (fun _ => MASKED) phones)))
  /\ (truthy (field "businessPhones" raw) = false ->
      lookup "businessPhones" masked = lookup "businessPhones" raw)
  /\ (forall k, k <> "id" -> k <> "businessPhones" -> lookup k masked = lookup k raw)
  /\ map fst masked = map fst raw.

Definition GRAPH_ME : string := "https://graph.microsoft.com/v1.0/me".
Definition GRAPH_SCOPE : string := "https://graph.microsoft.com/.default".

Definition consent_message : string :=
  "Error during token exchange and Graph API call. You're logged in but might need to grant consent to the application. Open a browser to the following link to consent: https://"
  ++ show_opt (WEBSITE_HOSTNAME env)
  ++ "/.auth/login/aad?post_login_redirect_uri=https://"
  ++ show_opt (WEBSITE_HOSTNAME env) ++ "/authcomplete".

Definition no_headers_output : list (string * value) :=
  [ ("authenticated", VBool false);
    ("message", VStr "No authentication headers found") ].

(** The [get_current_user] handler. *)
Definition get_current_user (extra : option request_extra) : M envelope :=
  match extra_headers extra with
  | None => ret (json2_envelope no_headers_output)
  | Some hs =>
      try_catch
        (authToken <- lift (bearer_token hs) ;;
         let tokenExchangeAudience :=
           match TokenExchangeAudience env with
           | Some a => a
           | None => "api://AzureADTokenExchange"
           end in
         let publicTokenExchangeScope := tokenExchangeAudience ++ "/.default" in
         let federatedCredentialClientId := OVERRIDE_USE_MI_FIC_ASSERTION_CLIENTID env in
         let clientId := WEBSITE_AUTH_CLIENT_ID env in
         call (NewManagedIdentityCredential federatedCredentialClientId)
              (fun tr => mi_new w tr federatedCredentialClientId) ;;;
         call (NewOnBehalfOfCredential (WEBSITE_AUTH_AAD_ALLOWED_TENANTS env) clientId
                 authToken publicTokenExchangeScope)
              (fun tr => obo_new w tr (WEBSITE_AUTH_AAD_ALLOWED_TENANTS env) clientId
                           authToken) ;;;
         token <- call (GetToken GRAPH_SCOPE) (fun tr => obo_getToken w tr GRAPH_SCOPE) ;;
         graphResponse <- fetch GRAPH_ME [("Authorization", "Bearer " ++ show_opt token)] ;;
         graphData <- lift (body graphResponse) ;;
         maskedUserData <- lift (maskUserData graphData) ;;
         ret (json2_envelope
                [ ("authenticated", VBool true);
                  ("user", VObj maskedUserData);
                  ("message",
                   VStr "Successfully retrieved user information from Microsoft Graph") ]))
        (fun error =>
           console_error "Error during token exchange and Graph API call:" ;;;
           ret (json2_envelope
                  [ ("authenticated", VBool false);
                    ("message", VStr consent_message) ]))
  end.

End Server.

Arguments value : clear implicits.
Arguments response : clear implicits.
Arguments world : clear implicits.
Arguments envelope : clear implicits.
Arguments ForecastPeriod : clear implicits.

(* ===================================================================== *)
(** ** The Express entry point *)
(* ===================================================================== *)

Section Entry.

Context {number : Type} {NUM : JsNumber number}.

(** Objects made with [new] are told apart by the address the allocator gave
    them; [heap] is the next free address. *)
Definition heap : Type := nat.

Record McpServer : Type := {
  server_address : nat;
  server_name : string;
  server_version : string;
  tools : list string
}.

Record StreamableHTTPServerTransport : Type := {
  transport_address : nat;
  sessionIdGenerator : option unit;      (* [undefined]: stateless mode *)
  enableJsonResponse : bool
}.

(** [createServer]: a new [McpServer] with the three tools registered. *)
Definition createServer (h : heap) : McpServer * heap :=
  ({| server_address := h;
      server_name := "weather";
      server_version := "1.0.0";
      tools := ["get-alerts"; "get-forecast"; "get_current_user"] |},
   S h).

Definition new_transport (h : heap) : StreamableHTTPServerTransport * heap :=
  ({| transport_address := h;
      sessionIdGenerator := None;
      enableJsonResponse := true |},
   S h).

(** The module-level state of the entry point: [const server = createServer()]
    runs once, when the module is loaded. *)
Record app : Type := {
  server : McpServer;
  free : heap
}.

Definition startup : app :=
  let (s, h) := createServer 0 in {| server := s; free := h |}.

(** The HTTP response under construction. *)
Record http_response : Type := {
  headersSent : bool;
  statusCode : Z;
  payload : option string
}.

Definition fresh_response : http_response :=
  {| headersSent := false; statusCode := 200; payload := None |}.

(** [res.status(code).json(o)] and [res.writeHead(code).end(JSON.stringify(o))]
    put the same bytes in the body. *)
Definition send_json (code : Z) (o : list (string * value number)) : http_response :=
  {| headersSent := true; statusCode := code; payload := Some (stringify o) |}.

Definition rpc_error (code : Z) (message : string) : list (string * value number) :=
  [ ("jsonrpc", VStr "2.0");
    ("error", VObj [ ("code", VNum (num_of_Z code)); ("message", VStr message) ]);
    ("id", VNull) ].

(** What the SDK does with one request: the transport constructor and
    [connect] may throw; [handleRequest] may write to the response and may
    throw, before or after the headers went out. *)
Record sdk : Type := {
  construct : outcome unit;
  connect : McpServer -> StreamableHTTPServerTransport -> outcome unit;
  handleRequest :
    StreamableHTTPServerTransport -> McpServer -> value number -> http_response ->
    outcome unit * http_response
}.

(** What one POST did. *)
Record dispatch : Type := {
  registry : McpServer;                                  (* the server it was served by *)
  transport : option StreamableHTTPServerTransport;      (* the transport made for it *)
  closed_with_response : option nat;                     (* [res.on('close', ...)] *)
  failed : bool;                                         (* the [catch] block ran *)
  reply : http_response
}.

(** [app.post('/mcp', ...)]. *)
Definition post_mcp (a : app) (k : sdk) (body : value number) : dispatch * app :=
  let res := fresh_response in
  let on_error (t : option StreamableHTTPServerTransport) (closing : option nat)
               (res : http_response) : dispatch :=
    {| registry := server a;
       transport := t;
       closed_with_response := closing;
       failed := true;
       reply := if negb (headersSent res)
                then send_json 500 (rpc_error (-32603) "Internal server error")
                else res |} in
  match construct k with
  | Throw _ => (on_error None None res, a)
  | Ok _ =>
      let (t, h) := new_transport (free a) in
      let a' := {| server := server a; free := h |} in
      let closing := Some (transport_address t) in
      match connect k (server a) t with
      | Throw _ => (on_error (Some t) closing res, a')
      | Ok _ =>
          match handleRequest k t (server a) body res with
          | (Throw _, res') => (on_error (Some t) closing res', a')
          | (Ok _, res') =>
              ({| registry := server a;
                  transport := Some t;
                  closed_with_response := closing;
                  failed := false;
                  reply := res' |}, a')
          end
      end
  end.

Definition method_not_allowed : http_response :=
  send_json 405 (rpc_error (-32000) "Method not allowed.").

(** [app.get('/mcp', ...)] and [app.delete('/mcp', ...)]. *)
Definition get_mcp : http_response := method_not_allowed.
Definition delete_mcp : http_response := method_not_allowed.

Inductive verb : Type := GET | HEAD | POST | PUT | DELETE | PATCH | OPTIONS.

Inductive route : Type :=
| RoutePostMcp
| RouteGetMcp
| RouteDeleteMcp
| RouteAuthComplete.

(** The routes the entry point registers, [app.post], [app.get] and
    [app.delete]; Express hands a HEAD request to the GET route when no HEAD
    route was registered.  Any other verb or path is left to Express. *)
Definition routes (v : verb) (path : string) : option route :=
  match v with
  | POST => if String.eqb path "/mcp" then Some RoutePostMcp else None
  | GET | HEAD =>
      if String.eqb path "/mcp" then Some RouteGetMcp
      else if String.eqb path "/authcomplete" then Some RouteAuthComplete
      else None
  | DELETE => if String.eqb path "/mcp" then Some RouteDeleteMcp else None
  | _ => None
  end.

(** Serving a sequence of POSTs one after the other. *)
Fixpoint serve (a : app) (requests : list (sdk * value number)) : list dispatch :=
  match requests with
  | [] => []
  | (k, body) :: rest =>
      let (d, a') := post_mcp a k body in d :: serve a' rest
  end.

End Entry.

(** The addresses of the transports a run of POSTs made. *)
Definition transport_addresses (served : list dispatch) : list nat :=
  flat_map (fun d => match transport d with
                     | Some t => [transport_address t]
                     | None => []
                     end) served.

(* ===================================================================== *)
(** ** A concrete runtime, for running the model *)
(* ===================================================================== *)

(** Integers printed in decimal: what a double that holds an integer prints
    as. *)
Definition Z_to_string (z : Z) : string := NilZero.string_of_int (Z.to_int z).

#[export] Instance ZNumber : JsNumber Z.
Proof.
  refine {| num_of_Z := fun z => z;
            num_is_zero := fun z => Z.eqb z 0;
            num_to_string := Z_to_string;
            num_to_fixed4 := fun z => Z_to_string z ++ ".0000";
            num_to_json := Z_to_string |}.
  - reflexivity.
  - assert (E : forall d, json_escape (NilEmpty.string_of_uint d) = NilEmpty.string_of_uint d).
    { induction d; [reflexivity | ..];
        cbn [NilEmpty.string_of_uint json_escape]; rewrite IHd; reflexivity. }
    assert (U : forall d, json_escape (NilZero.string_of_uint d) = NilZero.string_of_uint d).
    { intros [| d | d | d | d | d | d | d | d | d | d]; [reflexivity | ..]; apply E. }
    intro z. unfold Z_to_string, NilZero.string_of_int.
    destruct (Z.to_int z) as [d | d]; [apply U |].
    cbn [json_escape]. rewrite U. reflexivity.
Defined.

Definition upper_char (c : ascii) : ascii :=
  let n := nat_of_ascii c in
  if (Nat.leb 97 n && Nat.leb n 122)%bool then ascii_of_nat (n - 32) else c.

Fixpoint ascii_upper (s : string) : string :=
  match s with
  | EmptyString => EmptyString
  | String c rest => String (upper_char c) (ascii_upper rest)
  end.

Fixpoint chars (s : string) : list string :=
  match s with
  | EmptyString => []
  | String c rest => String c EmptyString :: chars rest
  end.

(** ASCII text: one code unit per character. *)
#[export] Instance AsciiString : JsString.
Proof.
  refine {| toUpperCase := ascii_upper; code_units := chars |}.
  intros [| c rest]; split; trivial; discriminate.
Defined.

(** An outside in which every [fetch] is answered with the given status and
    body, and every credential call succeeds. *)
Definition answering (code : Z) (payload : outcome (value Z)) : world Z :=
  {| net_fetch := fun _ _ _ => Ok {| status := code; body := payload |};
     mi_new := fun _ _ => Ok tt;
     obo_new := fun _ _ _ _ => Ok tt;
     obo_getToken := fun _ _ => Ok (Some "downstream-token") |}.

(** An outside in which the network is down. *)
Definition unreachable : world Z :=
  {| net_fetch := fun _ _ _ => Throw (TypeError "fetch failed");
     mi_new := fun _ _ => Ok tt;
     obo_new := fun _ _ _ _ => Ok tt;
     obo_getToken := fun _ _ => Ok (Some "downstream-token") |}.

Definition example_env : environment :=
  {| TokenExchangeAudience := None;
     OVERRIDE_USE_MI_FIC_ASSERTION_CLIENTID := Some "fic-client";
     WEBSITE_AUTH_CLIENT_ID := Some "app-client";
     WEBSITE_AUTH_AAD_ALLOWED_TENANTS := Some "tenant";
     WEBSITE_HOSTNAME := Some "app.example.net" |}.

Definition with_headers (hs : header_map) : option request_extra :=
  Some {| requestInfo := Some {| headers := Some hs |} |}.

(** A request that came with headers, none of them [authorization]. *)
Definition anonymous_request : option request_extra :=
  with_headers [("host", HOne "app.example.net"); ("accept", HOne "application/json")].

Definition bearer_request : option request_extra :=
  with_headers [("authorization", HOne "Bearer caller-token")].

(** A profile whose identifier is the number 0. *)
Definition profile_zero : value Z :=
  VObj [ ("id", VNum 0%Z);
         ("displayName", VStr "Ada");
         ("businessPhones", VArr [VStr "555-0100"]) ].

Definition profile_ada : value Z :=
  VObj [ ("id", VStr "48d31887");
         ("displayName", VStr "Ada");
         ("businessPhones", VArr [VStr "555-0100"; VStr "555-0101"]) ].

(** A period with no field at all, and one whose fields are all present and
    falsy. *)
Definition empty_period : ForecastPeriod Z :=
  {| name := None; temperature := None; temperatureUnit := None;
     windSpeed := None; windDirection := None; shortForecast := None |}.

Definition falsy_period : ForecastPeriod Z :=
  {| name := Some EmptyString; temperature := Some 0%Z;
     temperatureUnit := Some EmptyString; windSpeed := Some EmptyString;
     windDirection := Some "NW"; shortForecast := Some EmptyString |}.

Definition empty_alert : AlertProperties :=
  {| event := None; areaDesc := None; severity := None;
     alert_status := None; headline := None |}.

(** An SDK that serves the request, one whose [connect] throws, and one whose
    [handleRequest] throws after the response headers went out. *)
Definition sdk_serving : sdk (number:=Z) :=
  {| construct := Ok tt;
     connect := fun _ _ => Ok tt;
     handleRequest := fun _ _ _ _ =>
       (Ok tt, {| headersSent := true; statusCode := 200; payload := Some "{}" |}) |}.

Definition sdk_connect_fails : sdk (number:=Z) :=
  {| construct := Ok tt;
     connect := fun _ _ => Throw (Error "Already connected to a transport");
     handleRequest := fun _ _ _ res => (Ok tt, res) |}.

Definition sdk_fails_midway : sdk (number:=Z) :=
  {| construct := Ok tt;
     connect := fun _ _ => Ok tt;
     handleRequest := fun _ _ _ _ =>
       (Throw (Error "write after end"),
        {| headersSent := true; statusCode := 200; payload := None |}) |}.

(* ===================================================================== *)
(** ** Further vocabulary: schemas, renderings, the static page *)
(* ===================================================================== *)

Section Vocabulary.

Context {number : Type} {NUM : JsNumber number}.

(** The schemas [createServer] declares are built from these zod
    combinators.  [z.object] lets unknown keys through and wants a plain
    object (not an array, not [null]); [.optional()] also takes
    [undefined], which is what a missing key reads as. *)
Inductive zod : Type :=
| ZodString
| ZodNumber
| ZodBoolean
| ZodObject (shape : list (string * zod))
| ZodOptional (inner : zod).

Fixpoint accepts (z : zod) (v : value number) : bool :=
  match z with
  | ZodString => match v with VStr _ => true | _ => false end
  | ZodNumber => match v with VNum _ => true | _ => false end
  | ZodBoolean => match v with VBool _ => true | _ => false end
  | ZodOptional inner =>
      match v with
      | VUndefined => true
      | _ => accepts inner v
      end
  | ZodObject shape =>
      match v with
      | VObj fields =>
          (fix every (sh : list (string * zod)) : bool :=
             match sh with
             | [] => true
             | (k, zk) :: rest => (accepts zk (field k fields) && every rest)%bool
             end) shape
      | _ => false
      end
  end.

(** The [outputSchema] of the three tools. *)
Definition get_alerts_outputSchema : zod := ZodObject [("alerts", ZodString)].

Definition get_forecast_outputSchema : zod := ZodObject [("forecast", ZodString)].

Definition get_current_user_outputSchema : zod :=
  ZodObject [ ("authenticated", ZodBoolean);
            ("user", ZodOptional (ZodObject []));
            ("message", ZodOptional ZodString) ].

(** Whether a [fetch] answer delivers a payload: a 2xx response whose body
    decodes. *)
Definition delivered (answer : outcome (response number)) : bool :=
  match answer with
  | Ok r => (ok r && match body r with Ok _ => true | Throw _ => false end)%bool
  | Throw _ => false
  end.

(** How a conforming alert and a conforming period are printed. *)
Definition alert_rendering (a : AlertProperties) : string :=
  alert_text (or_default "Unknown" (event a))
             (or_default "Unknown" (areaDesc a))
             (or_default "Unknown" (severity a))
             (or_default "Unknown" (alert_status a))
             (or_default "No headline" (headline a)).

Definition period_rendering (p : ForecastPeriod number) : string :=
  period_text (or_default "Unknown" (name p))
              (number_or_unknown (temperature p))
              (or_default "F" (temperatureUnit p))
              (or_default "Unknown" (windSpeed p))
              (or_default EmptyString (windDirection p))
              (or_default "No forecast available" (shortForecast p)).

(** The three shapes the identity tool can answer with. *)
Definition consent_output (env : environment) : list (string * value number) :=
  [ ("authenticated", VBool false); ("message", VStr (consent_message env)) ].

Definition profile_output (masked : list (string * value number))
  : list (string * value number) :=
  [ ("authenticated", VBool true);
    ("user", VObj masked);
    ("message", VStr "Successfully retrieved user information from Microsoft Graph") ].

End Vocabulary.

(** The URL the alerts tool asks. *)
Definition alertsUrl {STR : JsString} (state : string) : string :=
  NWS_API_BASE ++ "/alerts?area=" ++ toUpperCase state.

(** The URL the forecast tool asks first. *)
Definition pointsUrl {number : Type} {NUM : JsNumber number} (latitude longitude : number)
  : string :=
  NWS_API_BASE ++ "/points/" ++ num_to_fixed4 latitude ++ "," ++ num_to_fixed4 longitude.

(** The grid-point lookup was answered 2xx with data of the declared shape
    that names a forecast feed: [properties.forecast] is a non-empty
    string. *)
Definition names_feed {number : Type} (answer : outcome (response number)) (target : string)
  : Prop :=
  exists r fields properties,
    answer = Ok r
    /\ (200 <= status r <= 299)%Z
    /\ body r = Ok (VObj fields)
    /\ lookup "properties" fields = Some (VObj properties)
    /\ lookup "forecast" properties = Some (VStr target)
    /\ target <> EmptyString.

(** What [makeNWSRequest] writes to the error log when a request fails. *)
Definition nws_error_log : list effect := [ConsoleError "Error making NWS request:"].

Fixpoint has_space (s : string) : bool :=
  match s with
  | EmptyString => false
  | String c rest => (Ascii.eqb c " "%char || has_space rest)%bool
  end.

Definition is_letter (c : ascii) : bool :=
  let n := nat_of_ascii c in
  ((Nat.leb 65 n && Nat.leb n 90) || (Nat.leb 97 n && Nat.leb n 122))%bool.

(** [pathname.replace(/^\/([a-zA-Z]:)/, '$1')] in the [/authcomplete] route:
    a slash before a Windows drive letter is dropped. *)
Definition strip_drive_slash (pathname : string) : string :=
  match pathname with
  | String slash (String letter (String colon rest)) =>
      if (Ascii.eqb slash "/"%char && is_letter letter && Ascii.eqb colon ":"%char)%bool
      then String letter (String colon rest)
      else pathname
  | _ => pathname
  end.

(** An outside whose [fetch] answers are given in order, one per request. *)
Definition scripted (answers : list (outcome (response Z))) : world Z :=
  {| net_fetch := fun tr _ _ =>
       nth (length (fetches tr)) answers (Throw (TypeError "fetch failed"));
     mi_new := fun _ _ => Ok tt;
     obo_new := fun _ _ _ _ => Ok tt;
     obo_getToken := fun _ _ => Ok (Some "downstream-token") |}.

Definition replying (code : Z) (payload : value Z) : outcome (response Z) :=
  Ok {| status := code; body := Ok payload |}.

Definition seattle_feed : string := "https://api.weather.gov/gridpoints/SEW/124,67/forecast".

(** Grid-point data that names a forecast feed, and some without one. *)
Definition grid_point : value Z :=
  VObj [("properties",
         VObj [("forecast", VStr "https://api.weather.gov/gridpoints/SEW/124,67/forecast")])].

Definition grid_point_without_feed : value Z := VObj [("properties", VObj [])].

Definition flood_warning : AlertProperties :=
  {| event := Some "Flood Warning"; areaDesc := Some "King County";
     severity := Some "Severe"; alert_status := Some "Actual"; headline := None |}.

Definition tonight : ForecastPeriod Z :=
  {| name := Some "Tonight"; temperature := Some 41%Z; temperatureUnit := Some "F";
     windSpeed := Some "5 mph"; windDirection := Some "SW";
     shortForecast := Some "Light Rain" |}.

Definition alerts_payload (alerts : list AlertProperties) : value Z :=
  VObj [("features", VArr (map alert_value alerts))].

Definition forecast_payload (periods : list (ForecastPeriod Z)) : value Z :=
  VObj [("properties", VObj [("periods", VArr (map period_value periods))])].

(* ===================================================================== *)
(** * Properties *)
(* ===================================================================== *)

Lemma append_assoc (a b c : string) : (a ++ b) ++ c = a ++ (b ++ c).
Proof.
  induction a as [| x a IH]; [reflexivity |].
  cbn [append]. now rewrite IH.
Qed.

Lemma json_escape_app (a b : string) :
  json_escape (a ++ b) = json_escape a ++ json_escape b.
Proof.
  induction a as [| c a IH]; [reflexivity |].
  cbn [append json_escape]. rewrite IH. symmetry. apply append_assoc.
Qed.

Lemma contains_middle (pre piece post : string) :
  contains (pre ++ piece ++ post) piece.
Proof. exists pre, post. reflexivity. Qed.

Lemma contains_wrap (pre post text piece : string) :
  contains text piece -> contains (pre ++ text ++ post) piece.
Proof.
  intros (a & b & ->). exists (pre ++ a), (b ++ post).
  now rewrite !append_assoc.
Qed.

Lemma contains_app_r (a b piece : string) :
  contains b piece -> contains (a ++ b) piece.
Proof.
  intros (x & y & ->). exists (a ++ x), y. now rewrite append_assoc.
Qed.

Lemma contains_escape (text piece : string) :
  contains text piece -> json_escape piece = piece ->
  contains (json_escape text) piece.
Proof.
  intros (a & b & ->) Hplain.
  rewrite !json_escape_app, Hplain. apply contains_middle.
Qed.

Section ServerProperties.

Context {number : Type} {NUM : JsNumber number} {STR : JsString}.
Variable w : world number.
Variable env : environment.

(** ** The fetch helper *)

Lemma makeNWSRequest_run (url : string) (tr : trace) :
  exists logged,
    makeNWSRequest w (VStr url) tr
    = (Ok (absent_or_payload (net_fetch w tr url nws_headers)),
       (tr ++ Fetch url nws_headers :: logged)%list)
    /\ fetches logged = [].
Proof.
  unfold makeNWSRequest, console_error, try_catch, bind, lift, fetch, call, throw, ret.
  cbn [to_string]. unfold absent_or_payload.
  destruct (net_fetch w tr url nws_headers) as [r | e].
  - destruct (ok r); cbn [negb].
    + destruct (body r) as [payload | e].
      * exists []. split; reflexivity.
      * exists [ConsoleError "Error making NWS request:"].
        rewrite <- app_assoc. split; reflexivity.
    + exists [ConsoleError "Error making NWS request:"].
      rewrite <- app_assoc. split; reflexivity.
  - exists [ConsoleError "Error making NWS request:"].
    rewrite <- app_assoc. split; reflexivity.
Qed.

Lemma ok_iff_2xx (r : response number) :
  ok r = true <-> (200 <= status r <= 299)%Z.
Proof. unfold ok. rewrite andb_true_iff, !Z.leb_le. tauto. Qed.

(** C4. For every URL the fetch helper returns the parsed payload when the
    response status is 2xx and the body decodes, returns [null] on a non-2xx
    status, on a network failure and on a decode failure, and in no case
    raises an exception to its caller. *)
Theorem makeNWSRequest_absent_not_raised (url : string) (tr : trace) :
  let answer := net_fetch w tr url nws_headers in
  let result := fst (makeNWSRequest w (VStr url) tr) in
  (forall r payload,
      answer = Ok r -> (200 <= status r <= 299)%Z -> body r = Ok payload ->
      result = Ok payload)
  /\ (forall r, answer = Ok r -> ~ (200 <= status r <= 299)%Z -> result = Ok VNull)
  /\ (forall e, answer = Throw e -> result = Ok VNull)
  /\ (forall r e, answer = Ok r -> body r = Throw e -> result = Ok VNull)
  /\ returns result.
Proof.
  cbv zeta. destruct (makeNWSRequest_run url tr) as (logged & -> & _).
  cbn [fst]. unfold absent_or_payload. repeat split.
  - intros r payload -> H2xx Hbody. apply ok_iff_2xx in H2xx.
    now rewrite H2xx, Hbody.
  - intros r -> Hnot.
    destruct (ok r) eqn:Hok; [| reflexivity].
    apply ok_iff_2xx in Hok. contradiction.
  - now intros e ->.
  - intros r e -> Hbody. rewrite Hbody. now destruct (ok r).
  - eexists. reflexivity.
Qed.

Lemma makeNWSRequest_fetches (url : string) (tr tr' : trace) (v : outcome (value number)) :
  makeNWSRequest w (VStr url) tr = (v, tr') ->
  fetches tr' = (fetches tr ++ [Fetch url nws_headers])%list.
Proof.
  destruct (makeNWSRequest_run url tr) as (logged & -> & Hlogged).
  intros [= _ <-]. unfold fetches in *.
  rewrite filter_app. cbn [filter is_fetch]. now rewrite Hlogged.
Qed.

(** [JSON.stringify({ k: s })] for a string [s]. *)
Lemma stringify_single (k s : string) :
  stringify [(k, @VStr number s)] = "{" ++ json_quote k ++ ":" ++ json_quote s ++ "}".
Proof.
  change (stringify [(k, @VStr number s)])
    with ("{" ++ (json_quote k ++ ":" ++ json_quote s) ++ "}").
  now rewrite !append_assoc.
Qed.

Lemma contains_stringify_single (k s piece : string) :
  contains s piece -> json_escape piece = piece ->
  contains (stringify [(k, @VStr number s)]) piece.
Proof.
  intros Hin Hplain. rewrite stringify_single.
  do 3 apply contains_app_r. unfold json_quote. rewrite !append_assoc.
  apply contains_wrap. now apply contains_escape.
Qed.

(** ** The forecast tool *)

(** C5. When the grid-point lookup comes back absent, the forecast handler
    returns an envelope whose text contains the requested latitude and
    longitude and says that only US locations are supported, and the
    forecast URL is not fetched: the call adds exactly one fetch, that of the
    grid point. *)
Theorem get_forecast_grid_point_absent (latitude longitude : number) (tr : trace) :
  let pointsUrl :=
    NWS_API_BASE ++ "/points/" ++ num_to_fixed4 latitude ++ "," ++ num_to_fixed4 longitude in
  fst (makeNWSRequest w (VStr pointsUrl) tr) = Ok VNull ->
  exists e tr',
    get_forecast w latitude longitude tr = (Ok e, tr')
    /\ structuredContent e = [("forecast", VStr (grid_point_failure latitude longitude))]
    /\ (exists txt,
          content e = [ {| type := "text"; text := txt |} ]
          /\ contains txt (num_to_string latitude)
          /\ contains txt (num_to_string longitude)
          /\ contains txt "only US locations are supported")
    /\ fetches tr' = (fetches tr ++ [Fetch pointsUrl nws_headers])%list.
Proof.
  cbv zeta. intro Habsent.
  destruct (makeNWSRequest w (VStr _) tr) as [looked tr1] eqn:Hrun.
  cbn [fst] in Habsent. subst looked.
  exists (json_envelope [("forecast", VStr (grid_point_failure latitude longitude))]), tr1.
  split; [| split; [reflexivity | split]].
  - unfold get_forecast, bind. now rewrite Hrun.
  - eexists. split; [reflexivity |]. cbn [text].
    repeat split; apply contains_stringify_single;
      try apply num_to_string_plain; try reflexivity; unfold grid_point_failure.
    + apply contains_middle.
    + do 3 apply contains_app_r.
      exists EmptyString. eexists. reflexivity.
    + do 4 apply contains_app_r.
      exists ". This location may not be supported by the NWS API (", ").".
      reflexivity.
  - eapply makeNWSRequest_fetches, Hrun.
Qed.

(** ** The alerts tool *)

(** C7, as the code has it.  When the alerts feed answers 2xx with an empty
    feature list, the structured [alerts] field is
    [No active alerts for <CODE>], with <CODE> the area code in upper case,
    and the output text is the JSON serialisation of the structured form,
    [{"alerts":"No active alerts for <CODE>"}], not the bare sentence. *)
Theorem get_alerts_none_active
    (state : string) (tr : trace) (r : response number)
    (fields : list (string * value number)) :
  let stateCode := toUpperCase state in
  net_fetch w tr (NWS_API_BASE ++ "/alerts?area=" ++ stateCode) nws_headers = Ok r ->
  (200 <= status r <= 299)%Z ->
  body r = Ok (VObj fields) ->
  lookup "features" fields = Some (VArr []) ->
  exists e tr',
    get_alerts w state tr = (Ok e, tr')
    /\ structuredContent e = [("alerts", VStr ("No active alerts for " ++ stateCode))]
    /\ content e =
       [ {| type := "text";
            text := "{" ++ dquote ++ "alerts" ++ dquote ++ ":" ++ dquote
                    ++ json_escape ("No active alerts for " ++ stateCode)
                    ++ dquote ++ "}" |} ].
Proof.
  cbv zeta. intros Hfetch H2xx Hbody Hfeatures.
  destruct (makeNWSRequest_run (NWS_API_BASE ++ "/alerts?area=" ++ toUpperCase state) tr)
    as (logged & Hrun & _).
  rewrite Hfetch in Hrun. unfold absent_or_payload in Hrun.
  apply ok_iff_2xx in H2xx. rewrite H2xx, Hbody in Hrun.
  eexists _, _. split.
  - unfold get_alerts, bind, lift, ret. rewrite Hrun.
    cbn [truthy negb get_prop]. rewrite Hfeatures.
    cbn [js_or truthy get_prop String.eqb Ascii.eqb Bool.eqb length Z.of_nat is_zero].
    rewrite num_of_Z_is_zero. cbn [Z.eqb]. reflexivity.
  - split; [reflexivity |].
    unfold json_envelope, text_content. cbn [content].
    rewrite stringify_single. unfold json_quote. rewrite !append_assoc.
    reflexivity.
Qed.

(** ** Formatting *)

Lemma field_or_object (fields : list (string * value number)) (k dflt : string) :
  field_or (VObj fields) k dflt
  = to_string (js_or (match lookup k fields with Some x => x | None => VUndefined end)
                     (VStr dflt)).
Proof. reflexivity. Qed.

Lemma print_optional_string (dflt : string) (x : option string) :
  to_string (js_or (match option_map (@VStr number) x with
                    | Some v => v
                    | None => VUndefined
                    end) (VStr dflt))
  = Ok (or_default dflt x).
Proof.
  destruct x as [s |]; [| reflexivity].
  unfold js_or, or_default. cbn [option_map truthy].
  now destruct (String.eqb s EmptyString).
Qed.

Lemma print_optional_number (x : option number) :
  to_string (js_or (match option_map (@VNum number) x with
                    | Some v => v
                    | None => VUndefined
                    end) (VStr "Unknown"))
  = Ok (number_or_unknown x).
Proof.
  destruct x as [n |]; [| reflexivity].
  unfold js_or, number_or_unknown. cbn [option_map truthy].
  now destruct (num_is_zero n).
Qed.

Ltac find_field :=
  match goal with
  | |- lookup _ _ = option_map _ (_ ?p) =>
      destruct p;
      repeat match goal with x : option _ |- _ => destruct x end;
      reflexivity
  end.

(** A conforming alert formats without an exception, every field through
    [||]. *)
Lemma formatAlert_conforming (a : AlertProperties) :
  formatAlert (alert_value (number:=number) a)
  = Ok (alert_text (or_default "Unknown" (event a))
                   (or_default "Unknown" (areaDesc a))
                   (or_default "Unknown" (severity a))
                   (or_default "Unknown" (alert_status a))
                   (or_default "No headline" (headline a))).
Proof.
  unfold formatAlert, alertLines, alert_value.
  cbn [get_prop lookup String.eqb Ascii.eqb Bool.eqb obind].
  set (fields := (_ ++ _)%list).
  assert (H1 : lookup "event" fields = option_map VStr (event a)) by (subst fields; find_field).
  assert (H2 : lookup "areaDesc" fields = option_map VStr (areaDesc a)) by (subst fields; find_field).
  assert (H3 : lookup "severity" fields = option_map VStr (severity a)) by (subst fields; find_field).
  assert (H4 : lookup "status" fields = option_map VStr (alert_status a)) by (subst fields; find_field).
  assert (H5 : lookup "headline" fields = option_map VStr (headline a)) by (subst fields; find_field).
  rewrite !field_or_object, H1, H2, H3, H4, H5, !print_optional_string.
  reflexivity.
Qed.

Lemma formatPeriod_conforming (p : ForecastPeriod number) :
  formatPeriod (period_value p)
  = Ok (period_text (or_default "Unknown" (name p))
                    (number_or_unknown (temperature p))
                    (or_default "F" (temperatureUnit p))
                    (or_default "Unknown" (windSpeed p))
                    (or_default EmptyString (windDirection p))
                    (or_default "No forecast available" (shortForecast p))).
Proof.
  unfold formatPeriod, periodLines, period_value.
  set (fields := (_ ++ _)%list).
  assert (H1 : lookup "name" fields = option_map VStr (name p)) by (subst fields; find_field).
  assert (H2 : lookup "temperature" fields = option_map VNum (temperature p))
    by (subst fields; find_field).
  assert (H3 : lookup "temperatureUnit" fields = option_map VStr (temperatureUnit p))
    by (subst fields; find_field).
  assert (H4 : lookup "windSpeed" fields = option_map VStr (windSpeed p))
    by (subst fields; find_field).
  assert (H5 : lookup "windDirection" fields = option_map VStr (windDirection p))
    by (subst fields; find_field).
  assert (H6 : lookup "shortForecast" fields = option_map VStr (shortForecast p))
    by (subst fields; find_field).
  rewrite !field_or_object, H1, H2, H3, H4, H5, H6,
    !print_optional_string, print_optional_number.
  reflexivity.
Qed.

(** C8, as the code has it.  In a formatted alert or forecast period every
    absent optional field is rendered as that field's own fixed default:
    [Unknown] for the event, area, severity, status, period name,
    temperature and wind speed, [No headline] for the headline, [F] for the
    temperature unit, [No forecast available] for the short forecast, and
    the empty string for the wind direction.  Formatting is a function of
    the record: the same record always gives the same string. *)
Theorem absent_fields_render_field_defaults :
  (forall a : AlertProperties,
      exists ev ar se st hl,
        formatAlert (alert_value (number:=number) a) = Ok (alert_text ev ar se st hl)
        /\ (event a = None -> ev = "Unknown")
        /\ (areaDesc a = None -> ar = "Unknown")
        /\ (severity a = None -> se = "Unknown")
        /\ (alert_status a = None -> st = "Unknown")
        /\ (headline a = None -> hl = "No headline"))
  /\ (forall p : ForecastPeriod number,
      exists nm t u ws wd sf,
        formatPeriod (period_value p) = Ok (period_text nm t u ws wd sf)
        /\ (name p = None -> nm = "Unknown")
        /\ (temperature p = None -> t = "Unknown")
        /\ (temperatureUnit p = None -> u = "F")
        /\ (windSpeed p = None -> ws = "Unknown")
        /\ (windDirection p = None -> wd = EmptyString)
        /\ (shortForecast p = None -> sf = "No forecast available"))
  /\ (forall (record : value number) r1 r2,
      (formatAlert record = r1 -> formatAlert record = r2 -> r1 = r2)
      /\ (formatPeriod record = r1 -> formatPeriod record = r2 -> r1 = r2)).
Proof.
  split; [| split].
  - intro a. eexists _, _, _, _, _. split; [apply formatAlert_conforming |].
    repeat split; intros ->; reflexivity.
  - intro p. eexists _, _, _, _, _, _. split; [apply formatPeriod_conforming |].
    repeat split; intros ->; reflexivity.
  - intros record r1 r2. split; congruence.
Qed.

Lemma or_default_present (dflt s : string) :
  s <> EmptyString -> or_default dflt (Some s) = s.
Proof.
  intro Hs. unfold or_default.
  destruct (String.eqb_spec s EmptyString); [contradiction | reflexivity].
Qed.

(** C10. In a formatted forecast period a field that is present but falsy, a
    temperature of 0 or an empty [name], [windSpeed], [temperatureUnit] or
    [shortForecast], is rendered as the default, not as its value: the
    substitution is keyed on falsiness.  A present field that is truthy is
    rendered as itself. *)
Theorem falsy_fields_render_defaults (p : ForecastPeriod number) :
  exists nm t u ws wd sf,
    formatPeriod (period_value p) = Ok (period_text nm t u ws wd sf)
    /\ (forall n, temperature p = Some n -> num_is_zero n = true -> t = "Unknown")
    /\ (name p = Some EmptyString -> nm = "Unknown")
    /\ (windSpeed p = Some EmptyString -> ws = "Unknown")
    /\ (temperatureUnit p = Some EmptyString -> u = "F")
    /\ (shortForecast p = Some EmptyString -> sf = "No forecast available")
    /\ (forall n, temperature p = Some n -> num_is_zero n = false -> t = num_to_string n)
    /\ (forall s, name p = Some s -> s <> EmptyString -> nm = s)
    /\ (forall s, windSpeed p = Some s -> s <> EmptyString -> ws = s)
    /\ (forall s, temperatureUnit p = Some s -> s <> EmptyString -> u = s)
    /\ (forall s, shortForecast p = Some s -> s <> EmptyString -> sf = s)
    /\ (forall s, windDirection p = Some s -> wd = s).
Proof.
  eexists _, _, _, _, _, _. split; [apply formatPeriod_conforming |].
  repeat split.
  - intros n -> Hzero. cbn [number_or_unknown]. now rewrite Hzero.
  - now intros ->.
  - now intros ->.
  - now intros ->.
  - now intros ->.
  - intros n -> Hzero. cbn [number_or_unknown]. now rewrite Hzero.
  - intros s -> Hs. now apply or_default_present.
  - intros s -> Hs. now apply or_default_present.
  - intros s -> Hs. now apply or_default_present.
  - intros s -> Hs. now apply or_default_present.
  - intros s ->. unfold or_default. now destruct (String.eqb_spec s EmptyString).
Qed.

(** ** The identity tool *)

Lemma outbound_app (a b : trace) :
  outbound (a ++ b)%list = (outbound a ++ outbound b)%list.
Proof. apply filter_app. Qed.

(** C2, as the code has it.  When the call carries no header map at all
    ([extra], [requestInfo] or [headers] is undefined) the identity handler
    returns exactly [{authenticated: false, message: "No authentication
    headers found"}] and does nothing else.  When a header map is there but
    has no [authorization] entry, still no credential exchange and no
    downstream call is made. *)
Theorem get_current_user_without_headers (extra : option request_extra) (tr : trace) :
  (extra_headers extra = None ->
     exists e,
       get_current_user w env extra tr = (Ok e, tr)
       /\ structuredContent e
          = [ ("authenticated", VBool false);
              ("message", VStr "No authentication headers found") ]
       /\ content e = text_content (stringify2 (structuredContent e)))
  /\ (forall hs,
        extra_headers extra = Some hs -> header "authorization" hs = None ->
        returns (fst (get_current_user w env extra tr))
        /\ outbound (snd (get_current_user w env extra tr)) = outbound tr).
Proof.
  split.
  - intro Hnone. unfold get_current_user. rewrite Hnone.
    eexists. repeat split.
  - intros hs Hsome Hauth. unfold get_current_user. rewrite Hsome.
    unfold console_error, try_catch, bind, lift, call, ret, bearer_token.
    rewrite Hauth. cbn [fst snd]. split; [eexists; reflexivity |].
    rewrite outbound_app. cbn. apply app_nil_r.
Qed.

Lemma lookup_assign_same (k : string) (v : value number) fields :
  lookup k (assign k v fields) = Some v.
Proof.
  induction fields as [| [k' v'] rest IH]; cbn [assign lookup].
  - now rewrite String.eqb_refl.
  - destruct (String.eqb k k') eqn:E; cbn [lookup]; rewrite E; [reflexivity | exact IH].
Qed.

Lemma lookup_assign_other (k k' : string) (v : value number) fields :
  k' <> k -> lookup k' (assign k v fields) = lookup k' fields.
Proof.
  intro Hne. induction fields as [| [k0 v0] rest IH]; cbn [assign lookup].
  - destruct (String.eqb_spec k' k); [contradiction | reflexivity].
  - destruct (String.eqb_spec k k0) as [-> | Hk]; cbn [lookup].
    + destruct (String.eqb_spec k' k0); [contradiction | reflexivity].
    + now rewrite IH.
Qed.

Lemma assign_keeps_keys (k : string) (v x : value number) fields :
  lookup k fields = Some x -> map fst (assign k v fields) = map fst fields.
Proof.
  induction fields as [| [k0 v0] rest IH]; cbn [assign lookup map fst]; [discriminate |].
  destruct (String.eqb k k0); cbn [map fst]; [reflexivity |].
  intro H. now rewrite IH.
Qed.

Lemma omap_const {A B} (b : B) (xs : list A) :
  omap (fun _ => Ok b) xs = Ok (map (fun _ => b) xs).
Proof.
  induction xs as [| x rest IH]; [reflexivity |].
  cbn [omap obind map]. now rewrite IH.
Qed.

Lemma truthy_field_present (k : string) (fields : list (string * value number)) :
  truthy (field k fields) = true -> exists x, lookup k fields = Some x.
Proof.
  unfold field. destruct (lookup k fields) as [x |]; [now exists x | discriminate].
Qed.

(** What the masking step does to the profile, field by field. *)
Lemma maskUserData_fields (graphData : value number) masked :
  maskUserData graphData = Ok masked ->
  masked_projection (spread graphData) masked.
Proof.
  unfold maskUserData, masked_projection. cbv zeta. set (raw := spread graphData).
  assert (Hne : "businessPhones" <> "id") by discriminate.
  destruct (truthy (field "businessPhones" raw)) eqn:Hphones.
  - destruct (truthy_field_present _ _ Hphones) as [x Hx].
    assert (Hf : field "businessPhones" raw = x) by (unfold field; now rewrite Hx).
    rewrite Hf in *.
    destruct x as [| | b | n | s | phones | o]; cbn [js_map obind]; try discriminate.
    rewrite omap_const. cbn [obind].
    set (step := assign "businessPhones" _ raw).
    assert (Hid : lookup "id" step = lookup "id" raw).
    { subst step. apply lookup_assign_other. intro E. now apply Hne. }
    assert (Hkeys : map fst step = map fst raw).
    { subst step. eapply assign_keeps_keys. eassumption. }
    assert (Hphones' : lookup "businessPhones" step
                       = Some (VArr (map (fun _ => MASKED) phones))).
    { subst step. apply lookup_assign_same. }
    assert (Hfid : field "id" step = field "id" raw) by (unfold field; now rewrite Hid).
    rewrite Hfid.
    destruct (truthy (field "id" raw)) eqn:Hidt; intros [= <-];
      (split; [| split; [| split; [| split; [| split]]]]); try discriminate.
    + intros _. apply lookup_assign_same.
    + intros _. exists phones. split; [assumption |].
      now rewrite lookup_assign_other.
    + intros k Hk1 Hk2. rewrite lookup_assign_other by assumption.
      subst step. now apply lookup_assign_other.
    + destruct (truthy_field_present _ _ Hidt) as [y Hy].
      rewrite <- Hkeys. eapply assign_keeps_keys. rewrite Hid. eassumption.
    + intros _. exact Hid.
    + intros _. exists phones. split; assumption.
    + intros k Hk1 Hk2. subst step. now apply lookup_assign_other.
    + exact Hkeys.
  - cbn [obind].
    destruct (truthy (field "id" raw)) eqn:Hidt; intros [= <-];
      (split; [| split; [| split; [| split; [| split]]]]);
      try discriminate; try reflexivity.
    + intros _. apply lookup_assign_same.
    + intros _. now apply lookup_assign_other.
    + intros k Hk1 Hk2. now apply lookup_assign_other.
    + destruct (truthy_field_present _ _ Hidt) as [y Hy].
      eapply assign_keeps_keys. eassumption.
Qed.

(** C3, as the code has it.  Whenever the identity handler answers
    [authenticated: true], the [user] of its structured result is the
    downstream profile with a truthy [id] replaced by [[MASKED]] and every
    element of a [businessPhones] array replaced by [[MASKED]]; every other
    property is passed through unchanged, and so is an [id] or a
    [businessPhones] that is falsy (absent, [null], [0], empty string,
    [false]).  The text of the envelope is the serialisation of that
    structured result. *)
Theorem get_current_user_masks_truthy_fields
    (extra : option request_extra) (tr tr' : trace) (e : envelope number) :
  get_current_user w env extra tr = (Ok e, tr') ->
  lookup "authenticated" (structuredContent e) = Some (VBool true) ->
  exists tr0 hdrs r graphData masked,
    net_fetch w tr0 GRAPH_ME hdrs = Ok r
    /\ body r = Ok graphData
    /\ lookup "user" (structuredContent e) = Some (VObj masked)
    /\ content e = text_content (stringify2 (structuredContent e))
    /\ masked_projection (spread graphData) masked.
Proof.
  unfold get_current_user.
  destruct (extra_headers extra) as [hs |];
    [| intros [= <- _]; discriminate].
  unfold console_error, fetch, try_catch, bind, lift, call, ret.
  destruct (bearer_token hs) as [authToken | ?];
    [| intros [= <- _]; discriminate].
  destruct (mi_new w tr _) as [[] | ?];
    [| intros [= <- _]; discriminate].
  destruct (obo_new w _ _ _ _) as [[] | ?];
    [| intros [= <- _]; discriminate].
  destruct (obo_getToken w _ _) as [token | ?];
    [| intros [= <- _]; discriminate].
  destruct (net_fetch w _ _ _) as [r | ?] eqn:Hfetch;
    [| intros [= <- _]; discriminate].
  destruct (body r) as [graphData | ?] eqn:Hbody;
    [| intros [= <- _]; discriminate].
  destruct (maskUserData graphData) as [masked | ?] eqn:Hmask;
    [| intros [= <- _]; discriminate].
  intros [= <- _] _.
  eexists _, _, r, graphData, masked.
  split; [exact Hfetch |].
  split; [exact Hbody |].
  split; [reflexivity |].
  split; [reflexivity |].
  now apply maskUserData_fields.
Qed.

End ServerProperties.

(** ** The entry point *)

Section EntryProperties.

Context {number : Type} {NUM : JsNumber number}.

Lemma post_mcp_registry (a : app) (k : sdk) (body : value number) :
  registry (fst (post_mcp a k body)) = server a
  /\ server (snd (post_mcp a k body)) = server a.
Proof.
  unfold post_mcp.
  destruct (construct k); [| split; reflexivity].
  cbn [new_transport].
  destruct (connect k _ _); [| split; reflexivity].
  destruct (handleRequest k _ _ _ _) as [[? | ?] ?]; split; reflexivity.
Qed.

Lemma post_mcp_transport (a : app) (k : sdk) (body : value number) t :
  transport (fst (post_mcp a k body)) = Some t ->
  transport_address t = free a /\ free (snd (post_mcp a k body)) = S (free a).
Proof.
  unfold post_mcp.
  destruct (construct k); [| discriminate].
  cbn [new_transport].
  destruct (connect k _ _); [| intros [= <-]; split; reflexivity].
  destruct (handleRequest k _ _ _ _) as [[? | ?] ?]; intros [= <-]; split; reflexivity.
Qed.

(** C1 (the code departs from it).  Two POSTs served one after the other are
    served by the same registry, the [McpServer] made once when the module
    was loaded; only the transports are made per request and differ. *)
Theorem post_mcp_shares_the_registry
    (a : app) (k1 k2 : sdk) (body1 body2 : value number) :
  let first := post_mcp a k1 body1 in
  let second := post_mcp (snd first) k2 body2 in
  registry (fst first) = registry (fst second)
  /\ registry (fst first) = server a
  /\ (forall t1 t2,
        transport (fst first) = Some t1 -> transport (fst second) = Some t2 ->
        transport_address t1 <> transport_address t2).
Proof.
  cbv zeta.
  destruct (post_mcp_registry a k1 body1) as [R1 S1].
  destruct (post_mcp_registry (snd (post_mcp a k1 body1)) k2 body2) as [R2 _].
  rewrite R1, R2, S1. repeat split.
  intros t1 t2 H1 H2.
  apply post_mcp_transport in H1 as [A1 F1].
  apply post_mcp_transport in H2 as [A2 _].
  rewrite A1, A2, F1. apply Nat.neq_succ_diag_r.
Qed.

(** C9, as the code has it.  A GET or a DELETE on the protocol endpoint is
    answered 405 with the fixed payload of code -32000 and message
    [Method not allowed.]; PUT, PATCH and OPTIONS have no route.  When serving a POST
    fails before any response header went out, the answer is 500 with the
    payload of code -32603 and message [Internal server error]; when it
    fails after the headers went out, nothing more is written. *)
Theorem protocol_error_payloads :
  (routes GET "/mcp" = Some RouteGetMcp
   /\ routes DELETE "/mcp" = Some RouteDeleteMcp
   /\ (forall v, routes v "/mcp" = None <-> v = PUT \/ v = PATCH \/ v = OPTIONS)
   /\ statusCode get_mcp = 405%Z
   /\ payload get_mcp
      = Some (stringify
                [ ("jsonrpc", VStr "2.0");
                  ("error", VObj [ ("code", VNum (num_of_Z (-32000)));
                                   ("message", VStr "Method not allowed.") ]);
                  ("id", VNull) ])
   /\ delete_mcp = get_mcp)
  /\ (forall (a : app) (k : sdk) (body : value number),
        let served := fst (post_mcp a k body) in
        failed served = true ->
        ((forall t e res,
             handleRequest k t (server a) body fresh_response = (Throw e, res) ->
             headersSent res = false) ->
         statusCode (reply served) = 500%Z
         /\ payload (reply served)
            = Some (stringify
                      [ ("jsonrpc", VStr "2.0");
                        ("error", VObj [ ("code", VNum (num_of_Z (-32603)));
                                         ("message", VStr "Internal server error") ]);
                        ("id", VNull) ]))
        /\ (forall t res,
              transport served = Some t ->
              connect k (server a) t = Ok tt ->
              snd (handleRequest k t (server a) body fresh_response) = res ->
              headersSent res = true ->
              reply served = res)).
Proof.
  split.
  - split; [reflexivity |]. split; [reflexivity |].
    split; [| repeat split].
    intros []; cbn; intuition discriminate.
  - intros a k body. cbv zeta. unfold post_mcp.
    destruct (construct k) as [[] | ?].
    + cbn [new_transport].
      destruct (connect k (server a) _) as [[] | ?] eqn:Hconnect.
      * destruct (handleRequest k _ (server a) body fresh_response)
          as [[[] | e] res] eqn:Hhandle; cbn [fst failed reply transport];
          [discriminate |].
        intros _. split.
        -- intro Hbefore. rewrite (Hbefore _ _ _ Hhandle). split; reflexivity.
        -- intros t res' [= <-] _ Hres Hsent. rewrite Hhandle in Hres.
           cbn [snd] in Hres. subst res'. now rewrite Hsent.
      * cbn [fst failed reply transport]. intros _. split.
        -- intros _. split; reflexivity.
        -- intros t res [= <-] Hok. rewrite Hconnect in Hok. discriminate.
    + cbn [fst failed reply transport]. intros _. split.
      * intros _. split; reflexivity.
      * discriminate.
Qed.

End EntryProperties.

(* ===================================================================== *)
(** * Concrete runs *)
(* ===================================================================== *)

(** ** Where the code and its description part ways *)

(** C2, counterexample.  A request that has headers but no [authorization]
    among them is not told [No authentication headers found]: the missing
    header makes [split] fail and the handler answers with the consent
    message. *)
Lemma anonymous_request_gets_consent_message :
  exists hs e tr,
    extra_headers anonymous_request = Some hs
    /\ header "authorization" hs = None
    /\ get_current_user (answering 200 (Ok profile_ada)) example_env anonymous_request []
       = (Ok e, tr)
    /\ lookup "message" (structuredContent e) = Some (VStr (consent_message example_env))
    /\ structuredContent e
       <> [ ("authenticated", VBool false);
            ("message", VStr "No authentication headers found") ].
Proof.
  eexists _, _, _. split; [reflexivity |]. split; [reflexivity |].
  split; [reflexivity |]. split; [reflexivity |].
  vm_compute. discriminate.
Qed.

(** C3, counterexample.  A profile whose identifier is the number 0 comes
    back with the identifier as it was: the marker replaces truthy
    identifiers only. *)
Lemma zero_identifier_not_masked :
  exists e tr user,
    get_current_user (answering 200 (Ok profile_zero)) example_env bearer_request []
    = (Ok e, tr)
    /\ lookup "authenticated" (structuredContent e) = Some (VBool true)
    /\ lookup "user" (structuredContent e) = Some (VObj user)
    /\ lookup "id" user = Some (VNum 0%Z)
    /\ lookup "id" user <> Some MASKED.
Proof.
  eexists _, _, _. split; [reflexivity |]. split; [reflexivity |].
  split; [reflexivity |]. split; [reflexivity |].
  vm_compute. discriminate.
Qed.

(** C6 (the code departs from it).  An alerts payload whose one feature has
    no [properties] makes [formatAlert] read a property of [undefined]; the
    alerts handler has no [try] around it, so the [TypeError] leaves the
    handler. *)
Theorem get_alerts_raises_on_feature_without_properties :
  fst (get_alerts (answering 200 (Ok (VObj [("features", VArr [VObj []])]))) "CA" [])
  = Throw (TypeError "Cannot read properties of undefined (reading 'event')").
Proof. reflexivity. Qed.

(** C7, counterexample.  With no active alert for CA the output text is the
    JSON object, not the sentence that the structured form holds. *)
Lemma no_alerts_text_is_json :
  exists e tr,
    get_alerts (answering 200 (Ok (VObj [("features", VArr [])]))) "CA" [] = (Ok e, tr)
    /\ structuredContent e = [("alerts", VStr "No active alerts for CA")]
    /\ map text (content e)
       = [ "{" ++ dquote ++ "alerts" ++ dquote ++ ":" ++ dquote
           ++ "No active alerts for CA" ++ dquote ++ "}" ]
    /\ map text (content e) <> [ "No active alerts for CA" ].
Proof.
  eexists _, _. split; [reflexivity |]. split; [reflexivity |].
  split; [reflexivity |]. vm_compute. discriminate.
Qed.

(** C8, counterexample.  A period with no field does not render [Unknown]
    six times: the unit defaults to [F], the short forecast to
    [No forecast available] and the wind direction to the empty string.  An
    alert with no field renders its headline as [No headline]. *)
Lemma absent_fields_not_all_unknown :
  formatPeriod (period_value empty_period)
  = Ok (period_text "Unknown" "Unknown" "F" "Unknown" EmptyString "No forecast available")
  /\ formatPeriod (period_value empty_period)
     <> Ok (period_text "Unknown" "Unknown" "Unknown" "Unknown" "Unknown" "Unknown")
  /\ formatAlert (alert_value (number:=Z) empty_alert)
     <> Ok (alert_text "Unknown" "Unknown" "Unknown" "Unknown" "Unknown").
Proof.
  split; [reflexivity |]. split; vm_compute; discriminate.
Qed.

(** C9, counterexample.  When [handleRequest] throws after the headers went
    out, the POST has failed and the reply carries no error payload at all;
    and a PUT on the endpoint has no route, so no handler of this program
    answers it. *)
Lemma failure_after_headers_has_no_error_payload :
  failed (fst (post_mcp startup sdk_fails_midway VNull)) = true
  /\ payload (reply (fst (post_mcp startup sdk_fails_midway VNull))) = None
  /\ payload (reply (fst (post_mcp startup sdk_fails_midway VNull)))
     <> Some (stringify (rpc_error (number:=Z) (-32603) "Internal server error"))
  /\ routes PUT "/mcp" = None.
Proof.
  split; [reflexivity |]. split; [reflexivity |]. split; [| reflexivity].
  vm_compute. discriminate.
Qed.

(** ** The theorems at concrete inputs *)

(** C1 on two requests served after startup: one registry, two transports. *)
Lemma two_posts_share_the_registry :
  map (fun d => server_address (registry d))
      (serve startup [(sdk_serving, VNull); (sdk_serving, VNull)]) = [0; 0]
  /\ map (fun d => option_map transport_address (transport d))
         (serve startup [(sdk_serving, VNull); (sdk_serving, VNull)]) = [Some 1; Some 2]
  /\ (forall t1 t2,
        transport (fst (post_mcp startup sdk_serving VNull)) = Some t1 ->
        transport (fst (post_mcp (snd (post_mcp startup sdk_serving VNull))
                                 sdk_serving VNull)) = Some t2 ->
        transport_address t1 <> transport_address t2).
Proof.
  split; [reflexivity |]. split; [reflexivity |].
  apply (post_mcp_shares_the_registry startup sdk_serving sdk_serving VNull VNull).
Defined.

Lemma get_current_user_without_headers_witness :
  (exists e,
      get_current_user (answering 200 (Ok profile_ada)) example_env None [] = (Ok e, [])
      /\ structuredContent e
         = [ ("authenticated", VBool false);
             ("message", VStr "No authentication headers found") ]
      /\ content e = text_content (stringify2 (structuredContent e)))
  /\ outbound (snd (get_current_user (answering 200 (Ok profile_ada)) example_env
                      anonymous_request [])) = [].
Proof.
  destruct (get_current_user_without_headers
              (answering 200 (Ok profile_ada)) example_env None []) as [Habsent _].
  destruct (get_current_user_without_headers
              (answering 200 (Ok profile_ada)) example_env anonymous_request [])
    as [_ Hanonymous].
  split.
  - apply Habsent. reflexivity.
  - eapply Hanonymous; reflexivity.
Defined.

Lemma get_current_user_masks_truthy_fields_witness :
  exists e tr',
    get_current_user (answering 200 (Ok profile_ada)) example_env bearer_request []
    = (Ok e, tr')
    /\ exists tr0 hdrs r graphData masked,
         net_fetch (answering 200 (Ok profile_ada)) tr0 GRAPH_ME hdrs = Ok r
         /\ body r = Ok graphData
         /\ lookup "user" (structuredContent e) = Some (VObj masked)
         /\ content e = text_content (stringify2 (structuredContent e))
         /\ masked_projection (spread graphData) masked.
Proof.
  eexists _, _. split; [reflexivity |].
  eapply (get_current_user_masks_truthy_fields
            (answering 200 (Ok profile_ada)) example_env bearer_request []);
    reflexivity.
Defined.

Lemma makeNWSRequest_absent_not_raised_witness :
  fst (makeNWSRequest (answering 200 (Ok (VObj [("features", VArr [])])))
         (VStr "https://api.weather.gov/alerts?area=CA") [])
  = Ok (VObj [("features", VArr [])])
  /\ fst (makeNWSRequest (answering 404 (Ok VNull))
            (VStr "https://api.weather.gov/alerts?area=CA") []) = Ok VNull
  /\ fst (makeNWSRequest unreachable
            (VStr "https://api.weather.gov/alerts?area=CA") []) = Ok VNull
  /\ fst (makeNWSRequest (answering 200 (Throw (Error "Unexpected token")))
            (VStr "https://api.weather.gov/alerts?area=CA") []) = Ok VNull.
Proof.
  split; [| split; [| split]].
  - destruct (makeNWSRequest_absent_not_raised
                (answering 200 (Ok (VObj [("features", VArr [])])))
                "https://api.weather.gov/alerts?area=CA" []) as (H2xx & _).
    eapply H2xx; [reflexivity | cbn [status]; lia | reflexivity].
  - destruct (makeNWSRequest_absent_not_raised (answering 404 (Ok VNull))
                "https://api.weather.gov/alerts?area=CA" []) as (_ & Hstatus & _).
    eapply Hstatus; [reflexivity | cbn [status]; lia].
  - destruct (makeNWSRequest_absent_not_raised unreachable
                "https://api.weather.gov/alerts?area=CA" []) as (_ & _ & Hnet & _).
    eapply Hnet. reflexivity.
  - destruct (makeNWSRequest_absent_not_raised
                (answering 200 (Throw (Error "Unexpected token")))
                "https://api.weather.gov/alerts?area=CA" []) as (_ & _ & _ & Hdecode & _).
    eapply Hdecode; reflexivity.
Defined.

Lemma get_forecast_grid_point_absent_witness :
  exists e tr',
    get_forecast unreachable 47%Z (-122)%Z [] = (Ok e, tr')
    /\ structuredContent e = [("forecast", VStr (grid_point_failure 47%Z (-122)%Z))]
    /\ (exists txt,
          content e = [ {| type := "text"; text := txt |} ]
          /\ contains txt "47"
          /\ contains txt "-122"
          /\ contains txt "only US locations are supported")
    /\ fetches tr'
       = [Fetch "https://api.weather.gov/points/47.0000,-122.0000" nws_headers].
Proof.
  exact (get_forecast_grid_point_absent unreachable 47%Z (-122)%Z [] eq_refl).
Defined.

Lemma get_alerts_none_active_witness :
  exists e tr',
    get_alerts (answering 200 (Ok (VObj [("features", VArr [])]))) "ca" [] = (Ok e, tr')
    /\ structuredContent e = [("alerts", VStr "No active alerts for CA")]
    /\ content e =
       [ {| type := "text";
            text := "{" ++ dquote ++ "alerts" ++ dquote ++ ":" ++ dquote
                    ++ "No active alerts for CA" ++ dquote ++ "}" |} ].
Proof.
  assert (H2xx : (200 <= 200 <= 299)%Z) by lia.
  exact (get_alerts_none_active
           (answering 200 (Ok (VObj [("features", VArr [])]))) "ca" []
           (r := {| status := 200; body := Ok (VObj [("features", VArr [])]) |})
           (fields := [("features", VArr [])]) eq_refl H2xx eq_refl eq_refl).
Defined.

Lemma absent_fields_render_field_defaults_witness :
  formatAlert (alert_value (number:=Z) empty_alert)
  = Ok (alert_text "Unknown" "Unknown" "Unknown" "Unknown" "No headline")
  /\ formatPeriod (period_value empty_period)
     = Ok (period_text "Unknown" "Unknown" "F" "Unknown" EmptyString
             "No forecast available").
Proof.
  destruct (absent_fields_render_field_defaults (number:=Z)) as (Halert & Hperiod & _).
  destruct (Halert empty_alert) as (ev & ar & se & st & hl & -> & E1 & E2 & E3 & E4 & E5).
  destruct (Hperiod empty_period)
    as (nm & t & u & ws & wd & sf & -> & P1 & P2 & P3 & P4 & P5 & P6).
  rewrite (E1 eq_refl), (E2 eq_refl), (E3 eq_refl), (E4 eq_refl), (E5 eq_refl).
  rewrite (P1 eq_refl), (P2 eq_refl), (P3 eq_refl), (P4 eq_refl), (P5 eq_refl),
    (P6 eq_refl).
  split; reflexivity.
Defined.

Lemma protocol_error_payloads_witness :
  statusCode (reply (fst (post_mcp startup sdk_connect_fails VNull))) = 500%Z
  /\ payload (reply (fst (post_mcp startup sdk_connect_fails VNull)))
     = Some ("{" ++ dquote ++ "jsonrpc" ++ dquote ++ ":" ++ dquote ++ "2.0" ++ dquote
             ++ "," ++ dquote ++ "error" ++ dquote ++ ":{"
             ++ dquote ++ "code" ++ dquote ++ ":-32603,"
             ++ dquote ++ "message" ++ dquote ++ ":" ++ dquote
             ++ "Internal server error" ++ dquote ++ "},"
             ++ dquote ++ "id" ++ dquote ++ ":null}").
Proof.
  destruct (protocol_error_payloads (number:=Z)) as [_ Hpost].
  destruct (Hpost startup sdk_connect_fails VNull eq_refl) as [Hbefore _].
  apply Hbefore. intros t e res. discriminate.
Defined.

Lemma falsy_fields_render_defaults_witness :
  formatPeriod (period_value falsy_period)
  = Ok (period_text "Unknown" "Unknown" "F" "Unknown" "NW" "No forecast available").
Proof.
  destruct (falsy_fields_render_defaults falsy_period)
    as (nm & t & u & ws & wd & sf & Hfmt & Ht & Hn & Hws & Hu & Hsf & _ & _ & _ & _ & _ & Hwd).
  rewrite (Ht 0%Z eq_refl eq_refl), (Hn eq_refl), (Hws eq_refl), (Hu eq_refl),
    (Hsf eq_refl), (Hwd "NW" eq_refl) in Hfmt.
  exact Hfmt.
Defined.

(* ===================================================================== *)
(** * Further properties of the handlers *)
(* ===================================================================== *)

Section HandlerProperties.

Context {number : Type} {NUM : JsNumber number} {STR : JsString}.
Variable w : world number.
Variable env : environment.

(** ** The fetch helper, once more *)

Lemma makeNWSRequest_trace (url : string) (tr : trace) :
  makeNWSRequest w (VStr url) tr
  = (Ok (absent_or_payload (net_fetch w tr url nws_headers)),
     (tr ++ Fetch url nws_headers
         :: (if delivered (net_fetch w tr url nws_headers) then [] else nws_error_log))%list).
Proof.
  unfold makeNWSRequest, console_error, try_catch, bind, lift, fetch, call, throw, ret.
  cbn [to_string]. unfold absent_or_payload, delivered, nws_error_log.
  destruct (net_fetch w tr url nws_headers) as [r | e].
  - destruct (ok r); cbn [negb andb].
    + destruct (body r) as [payload | e]; [reflexivity |].
      now rewrite <- app_assoc.
    + now rewrite <- app_assoc.
  - now rewrite <- app_assoc.
Qed.

Lemma makeNWSRequest_of_value (url : value number) (tr : trace) :
  match to_string url with
  | Ok target => makeNWSRequest w url tr = makeNWSRequest w (VStr target) tr
  | Throw _ => makeNWSRequest w url tr = (Ok VNull, (tr ++ nws_error_log)%list)
  end.
Proof.
  unfold makeNWSRequest, console_error, try_catch, bind, lift, call, ret.
  destruct (to_string url); reflexivity.
Qed.

Lemma fetches_after_request (tr : trace) (e : effect) (b : bool) :
  is_fetch e = true ->
  fetches (tr ++ e :: (if b then [] else nws_error_log))%list = (fetches tr ++ [e])%list.
Proof.
  intro He. unfold fetches. rewrite filter_app. cbn [filter]. rewrite He.
  now destruct b.
Qed.

Lemma fetches_after_log (tr : trace) : fetches (tr ++ nws_error_log)%list = fetches tr.
Proof. unfold fetches. rewrite filter_app. cbn. apply app_nil_r. Qed.

(** X1. Every call of the helper sends exactly one request, to the given
    URL with the two fixed headers, and never a second one; it writes one
    line to the error log exactly when no payload was delivered (network
    failure, status outside 2xx, body that does not decode), and then its
    result is [null]. *)
Theorem makeNWSRequest_one_request_logged_on_failure (url : string) (tr : trace) :
  let answer := net_fetch w tr url nws_headers in
  exists logged,
    snd (makeNWSRequest w (VStr url) tr)
    = (tr ++ Fetch url [("User-Agent", "weather-app/1.0"); ("Accept", "application/geo+json")]
          :: logged)%list
    /\ (delivered answer = true -> logged = [])
    /\ (delivered answer = false ->
        logged = [ConsoleError "Error making NWS request:"]
        /\ fst (makeNWSRequest w (VStr url) tr) = Ok VNull).
Proof.
  cbv zeta. rewrite makeNWSRequest_trace. cbn [fst snd].
  eexists. split; [reflexivity |].
  split; intros H; rewrite H; [reflexivity |]. split; [reflexivity |].
  unfold absent_or_payload. unfold delivered in H.
  destruct (net_fetch w tr url nws_headers) as [r | e]; [| reflexivity].
  destruct (ok r); [| reflexivity]. now destruct (body r).
Qed.

(** ** The alerts tool, path by path *)

Lemma truthy_not_nullish (v : value number) : truthy v = true -> nullish v = false.
Proof. now destruct v. Qed.

Lemma get_prop_returns (v : value number) (k : string) :
  nullish v = false -> exists x, get_prop v k = Ok x.
Proof. destruct v; try discriminate; intros _; eexists; reflexivity. Qed.

Lemma js_or_not_nullish (a : value number) (items : list (value number)) :
  nullish (js_or a (VArr items)) = false.
Proof.
  unfold js_or. destruct (truthy a) eqn:Ha; [| reflexivity].
  now apply truthy_not_nullish.
Qed.

(** X2. Whatever the upstream answers, and whether the handler returns or
    raises, one call of the alerts tool sends exactly one request: to
    [/alerts?area=] followed by the state in upper case, with the fixed
    headers. *)
Theorem get_alerts_sends_one_request (state : string) (tr : trace) :
  fetches (snd (get_alerts w state tr))
  = (fetches tr
       ++ [Fetch ("https://api.weather.gov/alerts?area=" ++ toUpperCase state)
                 nws_headers])%list.
Proof.
  unfold get_alerts, bind, lift, ret. rewrite makeNWSRequest_trace.
  set (payload := absent_or_payload _). set (tr1 := (tr ++ _)%list).
  assert (Htr1 : fetches tr1
                 = (fetches tr ++ [Fetch (NWS_API_BASE ++ "/alerts?area=" ++ toUpperCase state)
                                         nws_headers])%list)
    by (subst tr1; now apply fetches_after_request).
  destruct (truthy payload); cbn [negb]; [| exact Htr1].
  destruct (get_prop payload "features") as [f |]; [| exact Htr1].
  destruct (get_prop (js_or f (VArr [])) "length") as [len |]; [| exact Htr1].
  destruct (is_zero len); [exact Htr1 |].
  destruct (js_map (js_or f (VArr [])) formatAlert); exact Htr1.
Qed.

(** X3. Unless the upstream delivered a truthy payload, the alerts tool
    answers [Failed to retrieve alerts data]: on a network failure, a status
    outside 2xx, a body that does not decode, and also on a 2xx body that is
    [null], [false], [0] or the empty string. *)
Theorem get_alerts_reports_failed_retrieval (state : string) (tr : trace) :
  (forall r payload,
      net_fetch w tr (alertsUrl state) nws_headers = Ok r ->
      (200 <= status r <= 299)%Z -> body r = Ok payload -> truthy payload = false) ->
  exists tr',
    get_alerts w state tr
    = (Ok {| content :=
               [ {| type := "text";
                    text := stringify [("alerts", @VStr number "Failed to retrieve alerts data")] |} ];
             structuredContent := [("alerts", VStr "Failed to retrieve alerts data")] |},
       tr').
Proof.
  intro Hnone. unfold get_alerts, bind, lift, ret. rewrite makeNWSRequest_trace.
  fold (alertsUrl state).
  assert (Hfalsy : truthy (absent_or_payload (net_fetch w tr (alertsUrl state) nws_headers))
                   = false).
  { unfold absent_or_payload.
    destruct (net_fetch w tr (alertsUrl state) nws_headers) as [r | e]; [| reflexivity].
    destruct (ok r) eqn:Hok; [| reflexivity].
    destruct (body r) as [payload | e] eqn:Hbody; [| reflexivity].
    eapply Hnone; [reflexivity | now apply ok_iff_2xx | exact Hbody]. }
  rewrite Hfalsy. cbn [negb]. eexists. reflexivity.
Qed.

(** X4. A delivered payload that is truthy but has no usable feature list
    counts as "no alerts": when [features] is missing or falsy (also when
    the payload is not an object at all), when it is an empty array, and when
    it is anything whose [length] is [0]. *)
Theorem get_alerts_without_features
    (state : string) (tr : trace) (r : response number) (payload features : value number) :
  net_fetch w tr (alertsUrl state) nws_headers = Ok r ->
  (200 <= status r <= 299)%Z ->
  body r = Ok payload ->
  truthy payload = true ->
  get_prop payload "features" = Ok features ->
  truthy features = false \/ get_prop features "length" = Ok (VNum (num_of_Z 0)) ->
  exists tr',
    get_alerts w state tr
    = (Ok (json_envelope [("alerts", VStr ("No active alerts for " ++ toUpperCase state))]),
       tr').
Proof.
  intros Hfetch H2xx Hbody Htruthy Hfeatures Hempty.
  unfold get_alerts, bind, lift, ret. rewrite makeNWSRequest_trace.
  fold (alertsUrl state). rewrite Hfetch. unfold absent_or_payload.
  apply ok_iff_2xx in H2xx. rewrite H2xx, Hbody, Htruthy. cbn [negb].
  rewrite Hfeatures.
  assert (Hlen : get_prop (js_or features (VArr [])) "length" = Ok (VNum (num_of_Z 0))).
  { unfold js_or. destruct (truthy features) eqn:Hf.
    - destruct Hempty as [? | Hlen]; [discriminate | exact Hlen].
    - reflexivity. }
  rewrite Hlen. cbn [is_zero]. rewrite num_of_Z_is_zero. cbn [Z.eqb].
  eexists. reflexivity.
Qed.

Lemma omap_conforming_alerts (alerts : list AlertProperties) :
  omap formatAlert (map (alert_value (number:=number)) alerts)
  = Ok (map alert_rendering alerts).
Proof.
  induction alerts as [| a rest IH]; [reflexivity |].
  cbn [map omap]. rewrite formatAlert_conforming, IH. reflexivity.
Qed.

(** X5. When the upstream delivers a non-empty list of features that
    conform to the declared interface, the alerts tool returns (it does not
    raise), the text and the structured [alerts] field are the same string,
    and that string is the heading [Active alerts for <CODE>:], an empty
    line, and the formatted alerts in upstream order, one per feature, each
    ended by its [---] line. *)
Theorem get_alerts_lists_conforming_alerts
    (state : string) (tr : trace) (r : response number)
    (fields : list (string * value number)) (first : AlertProperties)
    (others : list AlertProperties) :
  net_fetch w tr (alertsUrl state) nws_headers = Ok r ->
  (200 <= status r <= 299)%Z ->
  body r = Ok (VObj fields) ->
  lookup "features" fields = Some (VArr (map alert_value (first :: others))) ->
  let alertsText :=
    "Active alerts for " ++ toUpperCase state ++ ":" ++ newline ++ newline
    ++ join newline (map alert_rendering (first :: others)) in
  exists tr',
    get_alerts w state tr
    = (Ok {| content := [ {| type := "text"; text := alertsText |} ];
             structuredContent := [("alerts", VStr alertsText)] |},
       tr').
Proof.
  intros Hfetch H2xx Hbody Hfeatures. cbv zeta.
  unfold get_alerts, bind, lift, ret. rewrite makeNWSRequest_trace.
  fold (alertsUrl state). rewrite Hfetch. unfold absent_or_payload.
  apply ok_iff_2xx in H2xx. rewrite H2xx, Hbody. cbn [truthy negb get_prop].
  rewrite Hfeatures.
  cbn [js_or truthy get_prop String.eqb Ascii.eqb Bool.eqb is_zero map length].
  rewrite num_of_Z_is_zero.
  change (Z.of_nat (S (length (map (alert_value (number:=number)) others)) ) =? 0)%Z
    with false.
  cbn [js_map]. change (alert_value first :: map alert_value others)
    with (map (alert_value (number:=number)) (first :: others)).
  rewrite omap_conforming_alerts. eexists. reflexivity.
Qed.

(** X6. Every envelope the alerts tool returns satisfies the tool's declared
    output schema: the structured form is exactly one [alerts] string.  The
    display form is one text item, which is that string itself on the
    listing path and the JSON serialisation of the structured form on the
    other paths. *)
Theorem get_alerts_output_conforms
    (state : string) (tr tr' : trace) (e : envelope number) :
  get_alerts w state tr = (Ok e, tr') ->
  exists alerts,
    structuredContent e = [("alerts", VStr alerts)]
    /\ accepts get_alerts_outputSchema (VObj (structuredContent e)) = true
    /\ (content e = [ {| type := "text"; text := alerts |} ]
        \/ content e = [ {| type := "text"; text := stringify (structuredContent e) |} ]).
Proof.
  unfold get_alerts, bind, lift, ret. rewrite makeNWSRequest_trace.
  destruct (truthy (absent_or_payload _)); cbn [negb].
  - destruct (get_prop _ "features") as [f |]; [| discriminate].
    destruct (get_prop (js_or f (VArr [])) "length") as [len |]; [| discriminate].
    destruct (is_zero len).
    + intros [= <- _]. eexists. split; [reflexivity |]. split; [reflexivity |].
      right. reflexivity.
    + destruct (js_map (js_or f (VArr [])) formatAlert); [| discriminate].
      intros [= <- _]. eexists. split; [reflexivity |]. split; [reflexivity |].
      left. reflexivity.
  - intros [= <- _]. eexists. split; [reflexivity |]. split; [reflexivity |].
    right. reflexivity.
Qed.

Lemma omap_raises {A B} (f : A -> outcome B) (xs : list A) (x : A) :
  In x xs -> (exists e, f x = Throw e) -> exists e, omap f xs = Throw e.
Proof.
  intros Hin [e He]. induction xs as [| y rest IH]; [contradiction |].
  cbn [omap]. destruct (f y) as [b |] eqn:Hy; [| eexists; reflexivity].
  destruct Hin as [-> | Hin]; [congruence |].
  destruct (IH Hin) as [e' ->]. eexists. reflexivity.
Qed.

Lemma formatAlert_needs_properties (feature : value number) :
  (nullish feature = true
   \/ exists props, get_prop feature "properties" = Ok props /\ nullish props = true) ->
  exists e, formatAlert feature = Throw e.
Proof.
  unfold formatAlert, alertLines.
  intros [Hnull | (props & -> & Hnull)].
  - destruct feature; try discriminate; eexists; reflexivity.
  - cbn [obind]. unfold field_or.
    destruct props; try discriminate; eexists; reflexivity.
Qed.

(** X7. The alerts tool raises, instead of returning an envelope, whenever
    the delivered feature list holds a feature that is [null] or has no
    [properties] (missing or [null]), wherever in the list it stands. *)
Theorem get_alerts_raises_on_any_feature_without_properties
    (state : string) (tr : trace) (r : response number)
    (fields : list (string * value number)) (features : list (value number))
    (feature : value number) :
  net_fetch w tr (alertsUrl state) nws_headers = Ok r ->
  (200 <= status r <= 299)%Z ->
  body r = Ok (VObj fields) ->
  lookup "features" fields = Some (VArr features) ->
  In feature features ->
  (nullish feature = true
   \/ exists props, get_prop feature "properties" = Ok props /\ nullish props = true) ->
  exists e tr', get_alerts w state tr = (Throw e, tr').
Proof.
  intros Hfetch H2xx Hbody Hfeatures Hin Hbad.
  unfold get_alerts, bind, lift, ret. rewrite makeNWSRequest_trace.
  fold (alertsUrl state). rewrite Hfetch. unfold absent_or_payload.
  apply ok_iff_2xx in H2xx. rewrite H2xx, Hbody. cbn [truthy negb get_prop].
  rewrite Hfeatures.
  cbn [js_or truthy get_prop String.eqb Ascii.eqb Bool.eqb is_zero].
  rewrite num_of_Z_is_zero.
  destruct features as [| x rest]; [contradiction |].
  change (Z.of_nat (length (x :: rest)) =? 0)%Z with false.
  cbn [js_map].
  destruct (omap_raises formatAlert (x :: rest) feature Hin
              (formatAlert_needs_properties feature Hbad)) as [e ->].
  eexists _, _. reflexivity.
Qed.

(** ** The forecast tool, path by path *)

Lemma makeNWSRequest_delivers
    (url : string) (tr : trace) (r : response number) (payload : value number) :
  net_fetch w tr url nws_headers = Ok r ->
  (200 <= status r <= 299)%Z ->
  body r = Ok payload ->
  makeNWSRequest w (VStr url) tr = (Ok payload, (tr ++ [Fetch url nws_headers])%list).
Proof.
  intros Hfetch H2xx Hbody. rewrite makeNWSRequest_trace, Hfetch.
  unfold absent_or_payload, delivered. apply ok_iff_2xx in H2xx.
  now rewrite H2xx, Hbody.
Qed.

Lemma makeNWSRequest_falsy (url : string) (tr : trace) :
  (forall r payload,
      net_fetch w tr url nws_headers = Ok r ->
      (200 <= status r <= 299)%Z -> body r = Ok payload -> truthy payload = false) ->
  exists v tr',
    makeNWSRequest w (VStr url) tr = (Ok v, tr')
    /\ truthy v = false
    /\ fetches tr' = (fetches tr ++ [Fetch url nws_headers])%list.
Proof.
  intro Hnone. rewrite makeNWSRequest_trace. eexists _, _.
  split; [reflexivity |]. split; [| now apply fetches_after_request].
  unfold absent_or_payload.
  destruct (net_fetch w tr url nws_headers) as [r | e]; [| reflexivity].
  destruct (ok r) eqn:Hok; [| reflexivity].
  destruct (body r) as [payload | e] eqn:Hbody; [| reflexivity].
  eapply Hnone; [reflexivity | now apply ok_iff_2xx | exact Hbody].
Qed.

Lemma fetches_snoc (tr : trace) (url : string) hs :
  fetches (tr ++ [Fetch url hs])%list = (fetches tr ++ [Fetch url hs])%list.
Proof. unfold fetches. now rewrite filter_app. Qed.

(** X8. One call of the forecast tool sends at most two requests and never
    repeats one: the first is always the grid-point lookup for the
    coordinates printed with four decimals, and a second one, if there is
    one, carries the same fixed headers.  This holds on every path, also
    when the handler raises. *)
Theorem get_forecast_sends_at_most_two_requests (latitude longitude : number) (tr : trace) :
  exists rest,
    fetches (snd (get_forecast w latitude longitude tr))
    = (fetches tr
         ++ Fetch ("https://api.weather.gov/points/"
                   ++ num_to_fixed4 latitude ++ "," ++ num_to_fixed4 longitude)
                  nws_headers
         :: rest)%list
    /\ (rest = [] \/ exists target, rest = [Fetch target nws_headers]).
Proof.
  unfold get_forecast, bind, lift, ret. rewrite makeNWSRequest_trace.
  set (first := Fetch _ nws_headers). set (pd := absent_or_payload _).
  set (tr1 := (tr ++ _)%list).
  assert (Htr1 : fetches tr1 = (fetches tr ++ [first])%list)
    by (subst tr1; now apply fetches_after_request).
  assert (Hone : exists rest,
             fetches tr1 = (fetches tr ++ first :: rest)%list
             /\ (rest = [] \/ exists target, rest = [Fetch target nws_headers]))
    by (exists []; split; [exact Htr1 | now left]).
  destruct (truthy pd); cbn [negb]; [| exact Hone].
  destruct (get_prop pd "properties") as [props |]; [| exact Hone].
  destruct (get_prop_opt props "forecast") as [forecastUrl |]; [| exact Hone].
  destruct (truthy forecastUrl); cbn [negb]; [| exact Hone].
  pose proof (makeNWSRequest_of_value forecastUrl tr1) as Hvalue.
  destruct (to_string forecastUrl) as [target | e].
  - rewrite Hvalue, makeNWSRequest_trace.
    set (fd := absent_or_payload _). set (tr2 := (tr1 ++ _)%list).
    assert (Htwo : exists rest,
               fetches tr2 = (fetches tr ++ first :: rest)%list
               /\ (rest = [] \/ exists target, rest = [Fetch target nws_headers])).
    { exists [Fetch target nws_headers]. split; [| right; now eexists].
      subst tr2. rewrite fetches_after_request by reflexivity.
      rewrite Htr1, <- app_assoc. reflexivity. }
    destruct (truthy fd); cbn [negb]; [| exact Htwo].
    destruct (get_prop fd "properties") as [props' |]; [| exact Htwo].
    destruct (get_prop_opt props' "periods") as [periods |]; [| exact Htwo].
    destruct (get_prop (js_or periods (VArr [])) "length") as [len |]; [| exact Htwo].
    destruct (is_zero len); [exact Htwo |].
    destruct (js_map (js_or periods (VArr [])) formatPeriod); exact Htwo.
  - rewrite Hvalue. cbn [truthy negb snd]. rewrite fetches_after_log. exact Hone.
Qed.

(** X9. When the grid-point lookup delivers a truthy payload from which no
    forecast URL can be read ([properties] missing or [null], or [forecast]
    missing or falsy), the forecast tool answers
    [Failed to get forecast URL from grid point data], and the lookup is the
    only request it sent. *)
Theorem get_forecast_without_forecast_url
    (latitude longitude : number) (tr : trace) (r : response number)
    (pointsData properties forecastUrl : value number) :
  net_fetch w tr (pointsUrl latitude longitude) nws_headers = Ok r ->
  (200 <= status r <= 299)%Z ->
  body r = Ok pointsData ->
  truthy pointsData = true ->
  get_prop pointsData "properties" = Ok properties ->
  get_prop_opt properties "forecast" = Ok forecastUrl ->
  truthy forecastUrl = false ->
  exists tr',
    get_forecast w latitude longitude tr
    = (Ok (json_envelope
             [("forecast", VStr "Failed to get forecast URL from grid point data")]),
       tr')
    /\ fetches tr'
       = (fetches tr ++ [Fetch (pointsUrl latitude longitude) nws_headers])%list.
Proof.
  intros Hfetch H2xx Hbody Htruthy Hprops Hurl Hfalsy.
  unfold get_forecast, bind, lift, ret. fold (pointsUrl latitude longitude).
  rewrite (makeNWSRequest_delivers _ _ Hfetch H2xx Hbody).
  rewrite Htruthy. cbn [negb]. rewrite Hprops, Hurl, Hfalsy. cbn [negb].
  eexists. split; [reflexivity | apply fetches_snoc].
Qed.

Ltac first_step Hfeed :=
  destruct Hfeed as (r1 & fields1 & props1 & Hfetch1 & H2xx1 & Hbody1 & Hprops1 & Hurl1 & Hne1);
  unfold pointsUrl in *;
  unfold get_forecast, bind, lift, ret;
  match goal with
  | |- context [makeNWSRequest w (VStr ?u)] =>
      rewrite (makeNWSRequest_delivers u _ Hfetch1 H2xx1 Hbody1)
  end;
  cbn [truthy negb get_prop]; rewrite Hprops1;
  cbn [get_prop_opt nullish get_prop]; rewrite Hurl1;
  cbn [truthy]; rewrite (proj2 (String.eqb_neq _ _) Hne1); cbn [negb].

(** X10. When the grid point names a forecast feed and the request to that
    feed delivers no truthy payload, the forecast tool answers
    [Failed to retrieve forecast data]; it has then sent exactly two
    requests, the lookup and then the feed the lookup named, and it does not
    try again. *)
Theorem get_forecast_feed_unavailable
    (latitude longitude : number) (tr : trace) (target : string) :
  names_feed (net_fetch w tr (pointsUrl latitude longitude) nws_headers) target ->
  (forall r payload,
      net_fetch w (tr ++ [Fetch (pointsUrl latitude longitude) nws_headers])%list
        target nws_headers = Ok r ->
      (200 <= status r <= 299)%Z -> body r = Ok payload -> truthy payload = false) ->
  exists tr',
    get_forecast w latitude longitude tr
    = (Ok (json_envelope [("forecast", VStr "Failed to retrieve forecast data")]), tr')
    /\ fetches tr'
       = (fetches tr ++ [ Fetch (pointsUrl latitude longitude) nws_headers;
                          Fetch target nws_headers ])%list.
Proof.
  intros Hfeed Hnone. first_step Hfeed.
  destruct (makeNWSRequest_falsy target _ Hnone) as (v & tr' & -> & Hv & Htr').
  rewrite Hv. cbn [negb]. eexists. split; [reflexivity |].
  rewrite Htr', fetches_snoc, <- app_assoc. reflexivity.
Qed.

(** X11. When the feed delivers a truthy payload without usable periods
    ([properties] missing or [null], [periods] missing or falsy, or a period
    list of length 0), the forecast tool answers
    [No forecast periods available]. *)
Theorem get_forecast_without_periods
    (latitude longitude : number) (tr : trace) (target : string) (r : response number)
    (forecastData properties periods : value number) :
  names_feed (net_fetch w tr (pointsUrl latitude longitude) nws_headers) target ->
  net_fetch w (tr ++ [Fetch (pointsUrl latitude longitude) nws_headers])%list
    target nws_headers = Ok r ->
  (200 <= status r <= 299)%Z ->
  body r = Ok forecastData ->
  truthy forecastData = true ->
  get_prop forecastData "properties" = Ok properties ->
  get_prop_opt properties "periods" = Ok periods ->
  truthy periods = false \/ get_prop periods "length" = Ok (VNum (num_of_Z 0)) ->
  exists tr',
    get_forecast w latitude longitude tr
    = (Ok (json_envelope [("forecast", VStr "No forecast periods available")]), tr').
Proof.
  intros Hfeed Hfetch H2xx Hbody Htruthy Hprops Hperiods Hempty. first_step Hfeed.
  cbn [to_string].
  rewrite (makeNWSRequest_delivers _ _ Hfetch H2xx Hbody).
  rewrite Htruthy. cbn [negb]. rewrite Hprops, Hperiods.
  assert (Hlen : get_prop (js_or periods (VArr [])) "length" = Ok (VNum (num_of_Z 0))).
  { unfold js_or. destruct (truthy periods) eqn:Hp.
    - destruct Hempty as [? | Hlen]; [discriminate | exact Hlen].
    - reflexivity. }
  rewrite Hlen. cbn [is_zero]. rewrite num_of_Z_is_zero. cbn [Z.eqb].
  eexists. reflexivity.
Qed.

Lemma omap_conforming_periods (periods : list (ForecastPeriod number)) :
  omap formatPeriod (map period_value periods) = Ok (map period_rendering periods).
Proof.
  induction periods as [| p rest IH]; [reflexivity |].
  cbn [map omap]. rewrite formatPeriod_conforming, IH. reflexivity.
Qed.

(** X12. When the grid point names a feed and the feed delivers a non-empty
    list of periods that conform to the declared interface, the forecast
    tool returns; text and structured [forecast] field are the same string:
    the heading [Forecast for <latitude>, <longitude>:] with the coordinates
    as given (not rounded), an empty line, and the formatted periods in
    upstream order. *)
Theorem get_forecast_lists_conforming_periods
    (latitude longitude : number) (tr : trace) (target : string) (r : response number)
    (fields properties : list (string * value number))
    (first : ForecastPeriod number) (others : list (ForecastPeriod number)) :
  names_feed (net_fetch w tr (pointsUrl latitude longitude) nws_headers) target ->
  net_fetch w (tr ++ [Fetch (pointsUrl latitude longitude) nws_headers])%list
    target nws_headers = Ok r ->
  (200 <= status r <= 299)%Z ->
  body r = Ok (VObj fields) ->
  lookup "properties" fields = Some (VObj properties) ->
  lookup "periods" properties = Some (VArr (map period_value (first :: others))) ->
  let forecastText :=
    "Forecast for " ++ num_to_string latitude ++ ", " ++ num_to_string longitude
    ++ ":" ++ newline ++ newline
    ++ join newline (map period_rendering (first :: others)) in
  exists tr',
    get_forecast w latitude longitude tr
    = (Ok {| content := [ {| type := "text"; text := forecastText |} ];
             structuredContent := [("forecast", VStr forecastText)] |},
       tr')
    /\ fetches tr'
       = (fetches tr ++ [ Fetch (pointsUrl latitude longitude) nws_headers;
                          Fetch target nws_headers ])%list.
Proof.
  intros Hfeed Hfetch H2xx Hbody Hprops Hperiods. cbv zeta. first_step Hfeed.
  cbn [to_string].
  rewrite (makeNWSRequest_delivers _ _ Hfetch H2xx Hbody).
  cbn [truthy negb get_prop]. rewrite Hprops.
  cbn [get_prop_opt nullish get_prop]. rewrite Hperiods.
  cbn [js_or truthy get_prop String.eqb Ascii.eqb Bool.eqb is_zero map length].
  rewrite num_of_Z_is_zero.
  change (Z.of_nat (S (length (map (@period_value number) others))) =? 0)%Z with false.
  cbn [js_map]. change (period_value first :: map period_value others)
    with (map (@period_value number) (first :: others)).
  rewrite omap_conforming_periods. eexists. split; [reflexivity |].
  rewrite !fetches_snoc, <- app_assoc. reflexivity.
Qed.

(** X13. Every envelope the forecast tool returns satisfies the tool's
    declared output schema: the structured form is exactly one [forecast]
    string.  The display form is one text item: that string itself when
    periods are listed, the JSON serialisation of the structured form on the
    four failure paths. *)
Theorem get_forecast_output_conforms
    (latitude longitude : number) (tr tr' : trace) (e : envelope number) :
  get_forecast w latitude longitude tr = (Ok e, tr') ->
  exists forecast,
    structuredContent e = [("forecast", VStr forecast)]
    /\ accepts get_forecast_outputSchema (VObj (structuredContent e)) = true
    /\ (content e = [ {| type := "text"; text := forecast |} ]
        \/ content e = [ {| type := "text"; text := stringify (structuredContent e) |} ]).
Proof.
  assert (Hjson : forall (msg : string) (e' : envelope number),
             Ok (json_envelope [("forecast", VStr msg)]) = Ok e' ->
             exists forecast,
               structuredContent e' = [("forecast", VStr forecast)]
               /\ accepts get_forecast_outputSchema (VObj (structuredContent e')) = true
               /\ (content e' = [ {| type := "text"; text := forecast |} ]
                   \/ content e'
                      = [ {| type := "text"; text := stringify (structuredContent e') |} ])).
  { intros msg e' [= <-]. eexists. split; [reflexivity |]. split; [reflexivity |].
    right. reflexivity. }
  unfold get_forecast, bind, lift, ret. rewrite makeNWSRequest_trace.
  destruct (truthy (absent_or_payload _)); cbn [negb];
    [| intros [= H _]; eapply Hjson; now rewrite H].
  destruct (get_prop _ "properties") as [props |]; [| discriminate].
  destruct (get_prop_opt props "forecast") as [forecastUrl |]; [| discriminate].
  destruct (truthy forecastUrl); cbn [negb];
    [| intros [= H _]; eapply Hjson; now rewrite H].
  destruct (makeNWSRequest w forecastUrl _) as [[fd | ?] tr2]; [| discriminate].
  destruct (truthy fd); cbn [negb];
    [| intros [= H _]; eapply Hjson; now rewrite H].
  destruct (get_prop fd "properties") as [props' |]; [| discriminate].
  destruct (get_prop_opt props' "periods") as [periods |]; [| discriminate].
  destruct (get_prop (js_or periods (VArr [])) "length") as [len |]; [| discriminate].
  destruct (is_zero len);
    [intros [= H _]; eapply Hjson; now rewrite H |].
  destruct (js_map (js_or periods (VArr [])) formatPeriod); [| discriminate].
  intros [= <- _]. eexists. split; [reflexivity |]. split; [reflexivity |].
  left. reflexivity.
Qed.

(** ** The identity tool, path by path *)

Ltac identity_paths finish :=
  unfold get_current_user, console_error, fetch, try_catch, bind, lift, call, ret;
  destruct (extra_headers _) as [hs |] eqn:Hheaders; [| finish];
  destruct (bearer_token hs) as [authToken | ?] eqn:Hbearer; [| finish];
  destruct (mi_new _ _ _) as [[] | ?]; [| finish];
  destruct (obo_new _ _ _ _ _) as [[] | ?]; [| finish];
  destruct (obo_getToken _ _ _) as [token | ?] eqn:Htoken; [| finish];
  destruct (net_fetch _ _ _ _) as [r | ?]; [| finish];
  destruct (body r) as [graphData | ?]; [| finish];
  destruct (maskUserData graphData) as [masked | ?]; finish.

(** X14. The identity tool never raises: for every request, environment and
    behaviour of the outside it returns an envelope.  The envelope has one
    of three structured forms (no headers, the consent message, or the
    masked profile), each of which satisfies the declared output schema,
    and its text is always the two-space indented JSON serialisation of the
    structured form. *)
Theorem get_current_user_always_answers (extra : option request_extra) (tr : trace) :
  exists e tr',
    get_current_user w env extra tr = (Ok e, tr')
    /\ content e = [ {| type := "text"; text := stringify2 (structuredContent e) |} ]
    /\ accepts get_current_user_outputSchema (VObj (structuredContent e)) = true
    /\ (structuredContent e
        = [ ("authenticated", VBool false);
            ("message", VStr "No authentication headers found") ]
        \/ structuredContent e = consent_output env
        \/ exists masked, structuredContent e = profile_output masked).
Proof.
  identity_paths
    ltac:(eexists _, _; (split; [reflexivity |]);
          (split; [reflexivity |]); (split; [reflexivity |]);
          solve [ left; reflexivity
                | right; left; reflexivity
                | right; right; eexists; reflexivity ]).
Qed.

Ltac normalise_trace :=
  cbn [snd fst]; repeat rewrite <- app_assoc; cbn [List.app].

(** X15. The identity tool goes outside in a fixed order and at most once
    per step: it asks for the delegated token (always for the Graph default
    scope) before anything else, and it calls the profile API only after
    that exchange returned, with exactly the token the exchange returned as
    bearer.  When the exchange fails there is no profile call, and nothing
    is retried. *)
Theorem get_current_user_outbound_order (extra : option request_extra) (tr : trace) :
  exists added,
    snd (get_current_user w env extra tr) = (tr ++ added)%list
    /\ (outbound added = []
        \/ outbound added = [GetToken "https://graph.microsoft.com/.default"]
        \/ exists tr0 token,
             obo_getToken w tr0 "https://graph.microsoft.com/.default" = Ok token
             /\ outbound added
                = [ GetToken "https://graph.microsoft.com/.default";
                    Fetch "https://graph.microsoft.com/v1.0/me"
                          [("Authorization", "Bearer " ++ show_opt token)] ]).
Proof.
  identity_paths
    ltac:(first
            [ exists []; split; [now rewrite app_nil_r | left; reflexivity]
            | normalise_trace; eexists; split; [reflexivity |];
              solve [ left; reflexivity
                    | right; left; reflexivity
                    | right; right; eexists _, _; split; [eassumption | reflexivity] ] ]).
Qed.

(** X16. Whenever the identity tool builds the on-behalf-of credential, the
    user assertion is the second word of the caller's [authorization]
    header, tenant and client come from the environment, and the scope of
    the signing assertion is the configured token-exchange audience, or
    [api://AzureADTokenExchange] when none is configured, followed by
    [/.default]. *)
Theorem get_current_user_delegation_parameters
    (extra : option request_extra) (tr : trace) :
  exists added,
    snd (get_current_user w env extra tr) = (tr ++ added)%list
    /\ forall tenantId clientId assertion scope,
         In (NewOnBehalfOfCredential tenantId clientId assertion scope) added ->
         (exists hs, extra_headers extra = Some hs /\ bearer_token hs = Ok assertion)
         /\ tenantId = WEBSITE_AUTH_AAD_ALLOWED_TENANTS env
         /\ clientId = WEBSITE_AUTH_CLIENT_ID env
         /\ scope = match TokenExchangeAudience env with
                    | Some audience => audience
                    | None => "api://AzureADTokenExchange"
                    end ++ "/.default".
Proof.
  identity_paths
    ltac:(first
            [ exists []; split; [now rewrite app_nil_r | intros ? ? ? ? []]
            | normalise_trace; eexists; split; [reflexivity |];
              intros tenantId clientId assertion scope Hin; cbn [In] in Hin;
              repeat (destruct Hin as [Hin | Hin]; try discriminate);
              try contradiction;
              injection Hin as <- <- <- <-;
              (split; [eexists; split; [reflexivity | assumption] |]);
              repeat split ]).
Qed.

Lemma append_nil_r (s : string) : s ++ EmptyString = s.
Proof. induction s as [| c s IH]; [reflexivity |]. cbn [append]. now rewrite IH. Qed.

Lemma split_space_aux_word (cur word : string) :
  has_space word = false -> split_space_aux cur word = [cur ++ word].
Proof.
  revert cur. induction word as [| c rest IH]; intros cur Hfree.
  - cbn [split_space_aux]. now rewrite append_nil_r.
  - cbn [has_space] in Hfree. apply orb_false_iff in Hfree as [Hc Hrest].
    cbn [split_space_aux]. rewrite Hc, IH, append_assoc by assumption. reflexivity.
Qed.

Lemma split_space_aux_first (cur word rest : string) :
  has_space word = false ->
  split_space_aux cur (word ++ " " ++ rest) = (cur ++ word) :: split_space_aux EmptyString rest.
Proof.
  revert cur. induction word as [| c word IH]; intros cur Hfree.
  - cbn [append split_space_aux]. rewrite append_nil_r. reflexivity.
  - cbn [has_space] in Hfree. apply orb_false_iff in Hfree as [Hc Hword].
    cbn [append split_space_aux]. rewrite Hc, IH, append_assoc by assumption. reflexivity.
Qed.

(** X17. The token the identity tool takes from the [authorization] header
    is the header's second space-separated word, whatever the first word
    is: the scheme is not checked to be [Bearer].  A header of one word
    gives no token ([undefined]) and no exception, so the exchange is still
    attempted; a missing header or one with several values raises inside the
    [try]. *)
Theorem bearer_token_is_second_word (hs : header_map) :
  (forall scheme token,
      header "authorization" hs = Some (HOne (scheme ++ " " ++ token)) ->
      has_space scheme = false -> has_space token = false ->
      bearer_token hs = Ok (Some token))
  /\ (forall word,
        header "authorization" hs = Some (HOne word) -> has_space word = false ->
        bearer_token hs = Ok None)
  /\ (header "authorization" hs = None -> exists e, bearer_token hs = Throw e)
  /\ (forall values,
        header "authorization" hs = Some (HMany values) ->
        exists e, bearer_token hs = Throw e).
Proof.
  unfold bearer_token, split_space. repeat split.
  - intros scheme token -> Hscheme Htoken.
    rewrite split_space_aux_first by assumption.
    rewrite split_space_aux_word by assumption. reflexivity.
  - intros word -> Hword. now rewrite split_space_aux_word by assumption.
  - intros ->. eexists. reflexivity.
  - intros values ->. eexists. reflexivity.
Qed.

Lemma assign_present (k : string) (v : value number) fields :
  lookup k fields = Some v -> assign k v fields = fields.
Proof.
  induction fields as [| [k' v'] rest IH]; cbn [lookup assign]; [discriminate |].
  destruct (String.eqb k k').
  - now intros [= ->].
  - intro H. now rewrite IH.
Qed.

Lemma field_of_lookup (k : string) (fields : list (string * value number)) x :
  lookup k fields = Some x -> field k fields = x.
Proof. unfold field. now intros ->. Qed.

Lemma map_masked_twice (phones : list (value number)) :
  map (fun _ : value number => @MASKED number)
      (map (fun _ : value number => @MASKED number) phones)
  = map (fun _ => MASKED) phones.
Proof. now rewrite map_map. Qed.

(** X18. Masking is idempotent: masking an already masked profile changes
    nothing and does not fail.  (A second pass finds [[MASKED]] where the
    first pass put it and puts it there again.) *)
Theorem maskUserData_idempotent (graphData : value number) masked :
  maskUserData graphData = Ok masked ->
  maskUserData (VObj masked) = Ok masked.
Proof.
  intro Hmask.
  destruct (maskUserData_fields graphData Hmask)
    as (Hid & Hid' & Hphones & Hphones' & _ & _).
  unfold maskUserData. cbn [spread].
  assert (Hstep1 :
            (if truthy (field "businessPhones" masked)
             then obind (js_map (field "businessPhones" masked) (fun _ => Ok MASKED))
                    (fun phones => Ok (assign "businessPhones" (VArr phones) masked))
             else Ok masked) = Ok masked).
  { destruct (truthy (field "businessPhones" (spread graphData))) eqn:Hraw.
    - destruct (Hphones eq_refl) as (phones & _ & Hm).
      rewrite (field_of_lookup _ _ Hm). cbn [truthy js_map].
      rewrite omap_const. cbn [obind]. rewrite map_masked_twice.
      now rewrite (assign_present _ _ Hm).
    - assert (Hsame : field "businessPhones" masked
                      = field "businessPhones" (spread graphData))
        by (unfold field; now rewrite (Hphones' eq_refl)).
      now rewrite Hsame, Hraw. }
  rewrite Hstep1. cbn [obind]. f_equal.
  destruct (truthy (field "id" (spread graphData))) eqn:Hraw.
  - pose proof (Hid eq_refl) as Hm.
    rewrite (field_of_lookup _ _ Hm). cbn [truthy String.eqb Ascii.eqb Bool.eqb negb].
    now apply assign_present.
  - assert (Hsame : field "id" masked = field "id" (spread graphData))
      by (unfold field; now rewrite (Hid' eq_refl)).
    now rewrite Hsame, Hraw.
Qed.

(** X19. The masking step fails exactly when [businessPhones] is truthy
    but not an array (a non-empty string, a number, an object): it calls
    [map] on it.  In every other case it returns.  Inside the handler such
    a profile therefore ends in the consent answer although the profile
    request itself succeeded. *)
Theorem maskUserData_fails_on_non_array_phones (graphData : value number) :
  (exists e, maskUserData graphData = Throw e)
  <-> (truthy (field "businessPhones" (spread graphData)) = true
       /\ forall phones, field "businessPhones" (spread graphData) <> VArr phones).
Proof.
  unfold maskUserData. set (raw := spread graphData).
  destruct (truthy (field "businessPhones" raw)) eqn:Htruthy.
  - destruct (field "businessPhones" raw) as [| | b | n | s | phones | o] eqn:Hfield;
      cbn [js_map obind]; try discriminate;
      try (split; [intros _; split; [reflexivity | discriminate]
                  | intros _; eexists; reflexivity]).
    rewrite omap_const. cbn [obind]. split.
    + intros [e He]. discriminate.
    + intros [_ Hnot]. now destruct (Hnot phones).
  - cbn [obind]. split.
    + intros [e He]. discriminate.
    + intros [? _]. discriminate.
Qed.

(** X23. The forecast tool raises, instead of returning an envelope,
    whenever the delivered period list holds a [null] entry: the formatter
    reads [name] of it, and nothing in the handler catches the
    [TypeError]. *)
Theorem get_forecast_raises_on_null_period
    (latitude longitude : number) (tr : trace) (target : string) (r : response number)
    (fields properties : list (string * value number)) (periods : list (value number))
    (period : value number) :
  names_feed (net_fetch w tr (pointsUrl latitude longitude) nws_headers) target ->
  net_fetch w (tr ++ [Fetch (pointsUrl latitude longitude) nws_headers])%list
    target nws_headers = Ok r ->
  (200 <= status r <= 299)%Z ->
  body r = Ok (VObj fields) ->
  lookup "properties" fields = Some (VObj properties) ->
  lookup "periods" properties = Some (VArr periods) ->
  In period periods ->
  nullish period = true ->
  exists e tr', get_forecast w latitude longitude tr = (Throw e, tr').
Proof.
  intros Hfeed Hfetch H2xx Hbody Hprops Hperiods Hin Hnull. first_step Hfeed.
  cbn [to_string].
  rewrite (makeNWSRequest_delivers _ _ Hfetch H2xx Hbody).
  cbn [truthy negb get_prop]. rewrite Hprops.
  cbn [get_prop_opt nullish get_prop]. rewrite Hperiods.
  cbn [js_or truthy get_prop String.eqb Ascii.eqb Bool.eqb is_zero].
  rewrite num_of_Z_is_zero.
  destruct periods as [| x rest]; [contradiction |].
  change (Z.of_nat (length (x :: rest)) =? 0)%Z with false.
  cbn [js_map].
  assert (Hbad : exists e, formatPeriod period = Throw e).
  { unfold formatPeriod, periodLines, field_or.
    destruct period; try discriminate; eexists; reflexivity. }
  destruct (omap_raises formatPeriod (x :: rest) period Hin Hbad) as [e ->].
  eexists _, _. reflexivity.
Qed.

End HandlerProperties.

(** ** The entry point, further *)

Section EntryFurther.

Context {number : Type} {NUM : JsNumber number}.


Lemma post_mcp_free (a : app) (k : sdk) (body : value number) :
  free a <= free (snd (post_mcp a k body)).
Proof.
  unfold post_mcp. destruct (construct k); [| apply Nat.le_refl].
  cbn [new_transport].
  destruct (connect k _ _); [| cbn; apply Nat.le_succ_diag_r].
  destruct (handleRequest k _ _ _ _) as [[? | ?] ?]; cbn; apply Nat.le_succ_diag_r.
Qed.

Lemma serve_addresses (requests : list (sdk * value number)) (a : app) :
  (forall d, In d (serve a requests) -> registry d = server a)
  /\ (forall x, In x (transport_addresses (serve a requests)) -> free a <= x)
  /\ NoDup (transport_addresses (serve a requests)).
Proof.
  revert a. induction requests as [| [k body] rest IH]; intro a.
  - cbn. repeat split; try contradiction. constructor.
  - cbn [serve].
    destruct (post_mcp a k body) as [d a'] eqn:Hpost.
    assert (Hd : d = fst (post_mcp a k body)) by now rewrite Hpost.
    assert (Ha' : a' = snd (post_mcp a k body)) by now rewrite Hpost.
    destruct (post_mcp_registry a k body) as [Hreg Hserver].
    pose proof (post_mcp_free a k body) as Hfree.
    rewrite <- Hd in Hreg. rewrite <- Ha' in Hserver, Hfree.
    destruct (IH a') as (IHreg & IHlow & IHnodup).
    assert (Hhere : forall t, transport d = Some t ->
                              transport_address t = free a /\ free a' = S (free a)).
    { intros t Ht. rewrite Hd in Ht. rewrite Ha'. now apply post_mcp_transport. }
    split; [| split].
    + intros d' [<- | Hin]; [exact Hreg |]. rewrite (IHreg _ Hin). exact Hserver.
    + intros x Hin. unfold transport_addresses in Hin. cbn [flat_map] in Hin.
      apply in_app_or in Hin as [Hin | Hin].
      * destruct (transport d) as [t |]; [| contradiction].
        destruct Hin as [<- | []]. destruct (Hhere t eq_refl) as [-> _]. apply Nat.le_refl.
      * apply IHlow in Hin. eapply Nat.le_trans; eassumption.
    + unfold transport_addresses. cbn [flat_map].
      destruct (transport d) as [t |]; [| exact IHnodup].
      destruct (Hhere t eq_refl) as [Haddr Hnext].
      cbn [List.app]. constructor; [| exact IHnodup].
      intro Hin. apply IHlow in Hin. rewrite Haddr, Hnext in Hin.
      exact (Nat.nle_succ_diag_l _ Hin).
Qed.

(** X21. However many POSTs the process serves after startup, and whatever
    the SDK does with each, every one of them is served by the registry
    made at startup, the transports made for them all have different
    addresses, and none of them is the registry's. *)
Theorem serve_one_registry_distinct_transports (requests : list (sdk * value number)) :
  (forall d, In d (serve startup requests) -> registry d = server startup)
  /\ NoDup (transport_addresses (serve startup requests))
  /\ (forall x, In x (transport_addresses (serve startup requests)) ->
                x <> server_address (server startup)).
Proof.
  destruct (serve_addresses requests startup) as (Hreg & Hlow & Hnodup).
  split; [exact Hreg |]. split; [exact Hnodup |].
  intros x Hin Heq. apply Hlow in Hin. rewrite Heq in Hin. cbn in Hin. lia.
Qed.

End EntryFurther.

(** X22. The drive-letter fix of the [/authcomplete] route drops at most one
    character, the leading slash, and only in front of a letter and a
    colon; any other pathname, in particular every POSIX path, is returned
    as it is.  Applying the fix twice is the same as applying it once. *)
Lemma letter_is_not_slash (c : ascii) : is_letter c = true -> Ascii.eqb c "/"%char = false.
Proof.
  intro H. destruct (Ascii.eqb_spec c "/"%char) as [-> |]; [discriminate | reflexivity].
Qed.

Lemma strip_drive_slash_cases (pathname : string) :
  strip_drive_slash pathname = pathname
  \/ exists letter rest,
       is_letter letter = true
       /\ pathname = String "/" (String letter (String ":" rest))
       /\ strip_drive_slash pathname = String letter (String ":" rest).
Proof.
  destruct pathname as [| slash [| letter [| colon rest]]]; try (left; reflexivity).
  unfold strip_drive_slash.
  destruct (Ascii.eqb_spec slash "/"%char) as [-> |]; cbn [andb]; [| left; reflexivity].
  destruct (is_letter letter) eqn:Hletter; cbn [andb]; [| left; reflexivity].
  destruct (Ascii.eqb_spec colon ":"%char) as [-> |]; [| left; reflexivity].
  right. exists letter, rest. repeat split. exact Hletter.
Qed.

Theorem strip_drive_slash_once (pathname : string) :
  strip_drive_slash (strip_drive_slash pathname) = strip_drive_slash pathname
  /\ (strip_drive_slash pathname = pathname
      \/ exists letter rest,
           is_letter letter = true
           /\ pathname = String "/" (String letter (String ":" rest))
           /\ strip_drive_slash pathname = String letter (String ":" rest)).
Proof.
  split; [| apply strip_drive_slash_cases].
  destruct (strip_drive_slash_cases pathname) as [Hsame | (letter & rest & Hletter & _ & Hcut)].
  - now rewrite Hsame.
  - rewrite Hcut. unfold strip_drive_slash.
    destruct rest as [| c rest']; [reflexivity |].
    now rewrite (letter_is_not_slash _ Hletter).
Qed.

(* ===================================================================== *)
(** * Further concrete runs *)
(* ===================================================================== *)

Lemma makeNWSRequest_one_request_logged_on_failure_witness :
  snd (makeNWSRequest (answering 200 (Ok profile_ada)) (VStr "https://api.weather.gov/x") [])
  = [Fetch "https://api.weather.gov/x" nws_headers]
  /\ snd (makeNWSRequest (answering 503 (Ok VNull)) (VStr "https://api.weather.gov/x") [])
     = [Fetch "https://api.weather.gov/x" nws_headers;
        ConsoleError "Error making NWS request:"].
Proof.
  split.
  - destruct (makeNWSRequest_one_request_logged_on_failure
                (answering 200 (Ok profile_ada)) "https://api.weather.gov/x" [])
      as (logged & -> & Hquiet & _).
    now rewrite (Hquiet eq_refl).
  - destruct (makeNWSRequest_one_request_logged_on_failure
                (answering 503 (Ok VNull)) "https://api.weather.gov/x" [])
      as (logged & -> & _ & Hlogged).
    destruct (Hlogged eq_refl) as [-> _]. reflexivity.
Defined.

Lemma get_alerts_reports_failed_retrieval_witness :
  exists tr',
    get_alerts (answering 200 (Ok VNull)) "wa" []
    = (Ok {| content :=
               [ {| type := "text";
                    text := stringify [("alerts", @VStr Z "Failed to retrieve alerts data")] |} ];
             structuredContent := [("alerts", VStr "Failed to retrieve alerts data")] |},
       tr').
Proof.
  apply (get_alerts_reports_failed_retrieval (answering 200 (Ok VNull)) "wa" []).
  intros r payload [= <-] _ [= <-]. reflexivity.
Defined.

Lemma get_alerts_without_features_witness :
  exists tr',
    get_alerts (answering 200 (Ok (VObj [("title", VStr "watches")]))) "wa" []
    = (Ok (json_envelope [("alerts", VStr "No active alerts for WA")]), tr').
Proof.
  assert (H2xx : (200 <= 200 <= 299)%Z) by lia.
  exact (get_alerts_without_features
           (answering 200 (Ok (VObj [("title", VStr "watches")]))) "wa" []
           (r := {| status := 200; body := Ok (VObj [("title", VStr "watches")]) |})
           (features := VUndefined)
           eq_refl H2xx eq_refl eq_refl eq_refl (or_introl eq_refl)).
Defined.

Lemma get_alerts_lists_conforming_alerts_witness :
  exists tr',
    get_alerts (answering 200 (Ok (alerts_payload [flood_warning; empty_alert]))) "wa" []
    = (Ok {| content :=
               [ {| type := "text";
                    text := "Active alerts for WA:" ++ newline ++ newline
                            ++ join newline [ alert_rendering flood_warning;
                                              alert_rendering empty_alert ] |} ];
             structuredContent :=
               [("alerts",
                 VStr ("Active alerts for WA:" ++ newline ++ newline
                       ++ join newline [ alert_rendering flood_warning;
                                         alert_rendering empty_alert ]))] |},
       tr').
Proof.
  assert (H2xx : (200 <= 200 <= 299)%Z) by lia.
  exact (get_alerts_lists_conforming_alerts
           (answering 200 (Ok (alerts_payload [flood_warning; empty_alert]))) "wa" []
           (r := {| status := 200;
                    body := Ok (alerts_payload [flood_warning; empty_alert]) |})
           (fields := [("features", VArr (map alert_value [flood_warning; empty_alert]))])
           (first := flood_warning) (others := [empty_alert])
           eq_refl H2xx eq_refl eq_refl).
Defined.

Lemma get_alerts_output_conforms_witness :
  exists alerts,
    structuredContent (json_envelope [("alerts", @VStr Z "No active alerts for WA")])
    = [("alerts", VStr alerts)]
    /\ accepts get_alerts_outputSchema
         (VObj (structuredContent
                  (json_envelope [("alerts", @VStr Z "No active alerts for WA")]))) = true.
Proof.
  assert (Hrun : get_alerts (answering 200 (Ok (alerts_payload []))) "wa" []
                 = (Ok (json_envelope [("alerts", VStr "No active alerts for WA")]),
                    [Fetch "https://api.weather.gov/alerts?area=WA" nws_headers]))
    by reflexivity.
  destruct (get_alerts_output_conforms _ _ _ Hrun) as (alerts & Hshape & Hschema & _).
  exists alerts. split; assumption.
Defined.

Lemma get_alerts_raises_on_any_feature_without_properties_witness :
  exists e tr',
    get_alerts
      (answering 200
         (Ok (VObj [("features", VArr [alert_value flood_warning; VNull])]))) "wa" []
    = (Throw e, tr').
Proof.
  assert (H2xx : (200 <= 200 <= 299)%Z) by lia.
  exact (get_alerts_raises_on_any_feature_without_properties
           (answering 200
              (Ok (VObj [("features", VArr [alert_value flood_warning; VNull])]))) "wa" []
           (r := {| status := 200;
                    body := Ok (VObj [("features",
                                       VArr [alert_value flood_warning; VNull])]) |})
           (fields := [("features", VArr [alert_value flood_warning; VNull])])
           (features := [alert_value flood_warning; VNull]) VNull
           eq_refl H2xx eq_refl eq_refl (or_intror (or_introl eq_refl))
           (or_introl eq_refl)).
Defined.

Lemma scripted_names_feed (later : list (outcome (response Z))) :
  names_feed
    (net_fetch (scripted (replying 200 grid_point :: later)) []
       (pointsUrl 47%Z (-122)%Z) nws_headers)
    seattle_feed.
Proof.
  eexists _, _, _. split; [reflexivity |]. split; [cbn [status]; lia |].
  split; [reflexivity |]. split; [reflexivity |]. split; [reflexivity | discriminate].
Defined.

Lemma get_forecast_without_forecast_url_witness :
  exists tr',
    get_forecast (answering 200 (Ok grid_point_without_feed)) 47%Z (-122)%Z []
    = (Ok (json_envelope
             [("forecast", VStr "Failed to get forecast URL from grid point data")]),
       tr')
    /\ fetches tr' = [Fetch "https://api.weather.gov/points/47.0000,-122.0000" nws_headers].
Proof.
  assert (H2xx : (200 <= 200 <= 299)%Z) by lia.
  exact (get_forecast_without_forecast_url
           (answering 200 (Ok grid_point_without_feed)) 47%Z (-122)%Z []
           (r := {| status := 200; body := Ok grid_point_without_feed |})
           (pointsData := grid_point_without_feed) (properties := VObj [])
           (forecastUrl := VUndefined)
           eq_refl H2xx eq_refl eq_refl eq_refl eq_refl eq_refl).
Defined.

Lemma get_forecast_feed_unavailable_witness :
  exists tr',
    get_forecast (scripted [replying 200 grid_point; replying 503 VNull]) 47%Z (-122)%Z []
    = (Ok (json_envelope [("forecast", VStr "Failed to retrieve forecast data")]), tr')
    /\ fetches tr'
       = [ Fetch "https://api.weather.gov/points/47.0000,-122.0000" nws_headers;
           Fetch seattle_feed nws_headers ].
Proof.
  apply (get_forecast_feed_unavailable
           (scripted [replying 200 grid_point; replying 503 VNull]) 47%Z (-122)%Z []
           (target := seattle_feed) (scripted_names_feed _)).
  intros r payload [= <-] H2xx. cbn [status] in H2xx. lia.
Defined.

Lemma get_forecast_without_periods_witness :
  exists tr',
    get_forecast
      (scripted [replying 200 grid_point; replying 200 (VObj [("properties", VObj [])])])
      47%Z (-122)%Z []
    = (Ok (json_envelope [("forecast", VStr "No forecast periods available")]), tr').
Proof.
  assert (H2xx : (200 <= 200 <= 299)%Z) by lia.
  exact (get_forecast_without_periods
           (scripted [replying 200 grid_point;
                      replying 200 (VObj [("properties", VObj [])])])
           47%Z (-122)%Z []
           (target := seattle_feed)
           (r := {| status := 200; body := Ok (VObj [("properties", VObj [])]) |})
           (forecastData := VObj [("properties", VObj [])])
           (properties := VObj []) (periods := VUndefined)
           (scripted_names_feed _) eq_refl H2xx eq_refl eq_refl eq_refl eq_refl
           (or_introl eq_refl)).
Defined.

Lemma get_forecast_lists_conforming_periods_witness :
  exists tr',
    get_forecast
      (scripted [replying 200 grid_point; replying 200 (forecast_payload [tonight])])
      47%Z (-122)%Z []
    = (Ok {| content :=
               [ {| type := "text";
                    text := "Forecast for 47, -122:" ++ newline ++ newline
                            ++ period_text "Tonight" "41" "F" "5 mph" "SW" "Light Rain" |} ];
             structuredContent :=
               [("forecast",
                 VStr ("Forecast for 47, -122:" ++ newline ++ newline
                       ++ period_text "Tonight" "41" "F" "5 mph" "SW" "Light Rain"))] |},
       tr')
    /\ fetches tr'
       = [ Fetch "https://api.weather.gov/points/47.0000,-122.0000" nws_headers;
           Fetch seattle_feed nws_headers ].
Proof.
  assert (H2xx : (200 <= 200 <= 299)%Z) by lia.
  exact (get_forecast_lists_conforming_periods
           (scripted [replying 200 grid_point;
                      replying 200 (forecast_payload [tonight])])
           47%Z (-122)%Z []
           (target := seattle_feed)
           (r := {| status := 200; body := Ok (forecast_payload [tonight]) |})
           (fields := [("properties", VObj [("periods", VArr [period_value tonight])])])
           (properties := [("periods", VArr [period_value tonight])])
           (first := tonight) (others := [])
           (scripted_names_feed _) eq_refl H2xx eq_refl eq_refl eq_refl).
Defined.

Lemma get_forecast_output_conforms_witness :
  exists forecast,
    structuredContent
      (json_envelope [("forecast", @VStr Z "Failed to retrieve forecast data")])
    = [("forecast", VStr forecast)]
    /\ accepts get_forecast_outputSchema
         (VObj (structuredContent
                  (json_envelope
                     [("forecast", @VStr Z "Failed to retrieve forecast data")]))) = true.
Proof.
  assert (Hrun : exists tr',
             get_forecast (scripted [replying 200 grid_point; replying 503 VNull])
               47%Z (-122)%Z []
             = (Ok (json_envelope [("forecast", VStr "Failed to retrieve forecast data")]),
                tr'))
    by (eexists; reflexivity).
  destruct Hrun as [tr' Hrun].
  destruct (get_forecast_output_conforms _ _ _ _ Hrun) as (forecast & Hshape & Hschema & _).
  exists forecast. split; assumption.
Defined.

Lemma get_current_user_delegation_parameters_witness :
  (exists hs,
      extra_headers bearer_request = Some hs /\ bearer_token hs = Ok (Some "caller-token"))
  /\ Some "tenant" = WEBSITE_AUTH_AAD_ALLOWED_TENANTS example_env
  /\ Some "app-client" = WEBSITE_AUTH_CLIENT_ID example_env
  /\ "api://AzureADTokenExchange/.default"
     = match TokenExchangeAudience example_env with
       | Some audience => audience
       | None => "api://AzureADTokenExchange"
       end ++ "/.default".
Proof.
  destruct (get_current_user_delegation_parameters
              (answering 200 (Ok profile_ada)) example_env bearer_request [])
    as (added & Hadded & Hparams).
  apply Hparams. cbn [List.app] in Hadded. rewrite <- Hadded.
  right. left. reflexivity.
Defined.

Lemma bearer_token_is_second_word_witness :
  bearer_token [("authorization", HOne "Basic dXNlcjpwYXNz")] = Ok (Some "dXNlcjpwYXNz")
  /\ bearer_token [("authorization", HOne "caller-token")] = Ok None.
Proof.
  split.
  - destruct (bearer_token_is_second_word [("authorization", HOne "Basic dXNlcjpwYXNz")])
      as (Hsecond & _).
    apply (Hsecond "Basic" "dXNlcjpwYXNz"); reflexivity.
  - destruct (bearer_token_is_second_word [("authorization", HOne "caller-token")])
      as (_ & Hone & _).
    apply (Hone "caller-token"); reflexivity.
Defined.

Lemma maskUserData_idempotent_witness :
  maskUserData (VObj [ ("id", MASKED); ("displayName", VStr "Ada");
                       ("businessPhones", VArr [MASKED; MASKED]) ])
  = Ok [ ("id", @MASKED Z); ("displayName", VStr "Ada");
         ("businessPhones", VArr [MASKED; MASKED]) ].
Proof.
  apply (maskUserData_idempotent profile_ada). reflexivity.
Defined.

Lemma maskUserData_fails_on_non_array_phones_witness :
  exists e,
    maskUserData (VObj [("id", VStr "48d31887"); ("businessPhones", @VStr Z "555-0100")])
    = Throw e.
Proof.
  apply (proj2 (maskUserData_fails_on_non_array_phones
                  (VObj [("id", VStr "48d31887"); ("businessPhones", @VStr Z "555-0100")]))).
  split; [reflexivity | discriminate].
Defined.


Lemma serve_one_registry_distinct_transports_witness :
  NoDup (transport_addresses
           (serve startup [ (sdk_serving, VNull); (sdk_fails_midway, VNull);
                            (sdk_connect_fails, VNull); (sdk_serving, VNull) ]))
  /\ registry (fst (post_mcp startup sdk_serving VNull)) = server startup.
Proof.
  destruct (serve_one_registry_distinct_transports
              [ (sdk_serving, VNull); (sdk_fails_midway, VNull);
                (sdk_connect_fails, VNull); (sdk_serving, VNull) ])
    as (Hregistry & Hdistinct & _).
  split; [exact Hdistinct |].
  apply Hregistry. left. reflexivity.
Defined.

Lemma get_forecast_raises_on_null_period_witness :
  exists e tr',
    get_forecast
      (scripted [ replying 200 grid_point;
                  replying 200
                    (VObj [("properties",
                            VObj [("periods", VArr [period_value tonight; VNull])])]) ])
      47%Z (-122)%Z []
    = (Throw e, tr').
Proof.
  assert (H2xx : (200 <= 200 <= 299)%Z) by lia.
  exact (get_forecast_raises_on_null_period
           (scripted [ replying 200 grid_point;
                       replying 200
                         (VObj [("properties",
                                 VObj [("periods", VArr [period_value tonight; VNull])])]) ])
           47%Z (-122)%Z []
           (target := seattle_feed)
           (r := {| status := 200;
                    body := Ok (VObj [("properties",
                                       VObj [("periods",
                                              VArr [period_value tonight; VNull])])]) |})
           (fields := [("properties",
                        VObj [("periods", VArr [period_value tonight; VNull])])])
           (properties := [("periods", VArr [period_value tonight; VNull])])
           (periods := [period_value tonight; VNull]) VNull
           (scripted_names_feed _) eq_refl H2xx eq_refl eq_refl eq_refl
           (or_intror (or_introl eq_refl)) eq_refl).
Defined.
